(** * isupipe: the livestream reservation handler and its entity caches

    A shallow embedding of [reserveLivestreamHandler] (src/go/main.go), of
    the cache population loops of [initializeHandler], and of the storage
    statements they issue.  The SQL store is modelled as explicit state: one
    list of rows per table.  Every storage call that can return an error in
    the Go code takes its error from an [Oracle], so that each [if err != nil]
    branch of the handler is reachable in the model.

    The same conventions are used for the other handlers embedded below:
    the rankings of the statistics handlers, [verifyUserSession] and
    [loginHandler] (src/go/user_handler.go), [postLivecommentHandler] and
    [moderateHandler], [fillLivestreamResponseBulk], [getLivestreamHandler]
    and [getTagHandler] (src/go/top_handler.go). *)

From Stdlib Require Import ZArith String.
From stdpp Require Import base option list strings gmap.

Local Open Scope Z_scope.

(** ** Machine integers and [time.Time] *)

Definition min_int64 : Z := - 2 ^ 63.
Definition max_int64 : Z := 2 ^ 63 - 1.

(** Two's complement wrap-around of a Go [int64] computation. *)
Definition wrap64 (z : Z) : Z := (z + 2 ^ 63) mod 2 ^ 64 - 2 ^ 63.

Module Time.

(** A [time.Time] without monotonic reading and with zero nanoseconds is
    its [ext] field: seconds since January 1 of year 1, as an [int64]. *)
Definition t : Type := Z.

Definition unixToInternal : Z :=
  (1969 * 365 + 1969 / 4 - 1969 / 100 + 1969 / 400) * 86400.

(** [time.Unix(sec, 0)]: the sum is an [int64] addition and wraps. *)
Definition Unix (sec : Z) : t := wrap64 (sec + unixToInternal).

(** Days from 1970-01-01 to the given proleptic Gregorian date. *)
Definition daysFromCivil (y m d : Z) : Z :=
  let y' := if m <=? 2 then y - 1 else y in
  let era := y' / 400 in
  let yoe := y' - era * 400 in
  let mp := if 2 <? m then m - 3 else m + 9 in
  let doy := (153 * mp + 2) / 5 + d - 1 in
  let doe := yoe * 365 + yoe / 4 - yoe / 100 + doy in
  era * 146097 + doe - 719468.

(** [time.Date(y, m, d, h, 0, 0, 0, time.UTC)]. *)
Definition Date (y m d h : Z) : t :=
  daysFromCivil y m d * 86400 + h * 3600 + unixToInternal.

(** [t.Unix()]. *)
Definition toUnix (x : t) : Z := wrap64 (x - unixToInternal).

Definition Equal (x u : t) : bool := x =? u.
Definition After (x u : t) : bool := u <? x.
Definition Before (x u : t) : bool := x <? u.

End Time.

(** ** Records of the source *)

Record ReserveLivestreamRequest := {
  req_Tags : list Z;
  req_Title : string;
  req_Description : string;
  req_PlaylistUrl : string;
  req_ThumbnailUrl : string;
  req_StartAt : Z;
  req_EndAt : Z
}.

Record LivestreamModel := {
  ls_ID : Z;
  ls_UserID : Z;
  ls_Title : string;
  ls_Description : string;
  ls_PlaylistUrl : string;
  ls_ThumbnailUrl : string;
  ls_StartAt : Z;
  ls_EndAt : Z
}.

Record LivestreamTagModel := {
  lt_ID : Z;
  lt_LivestreamID : Z;
  lt_TagID : Z
}.

Record ReservationSlotModel := {
  slot_ID : Z;
  slot_Slot : Z;
  slot_StartAt : Z;
  slot_EndAt : Z
}.

Record TagModel := { tagm_ID : Z; tagm_Name : string }.
Record Tag := { tag_ID : Z; tag_Name : string }.

Record UserModel := {
  um_ID : Z;
  um_Name : string;
  um_DisplayName : string;
  um_Description : string;
  um_HashedPassword : string
}.

Record Theme := { theme_ID : Z; theme_DarkMode : bool }.

Record User := {
  user_ID : Z;
  user_Name : string;
  user_DisplayName : string;
  user_Description : string;
  user_Theme : Theme;
  user_IconHash : string
}.

Record Livestream := {
  l_ID : Z;
  l_Owner : User;
  l_Title : string;
  l_Description : string;
  l_PlaylistUrl : string;
  l_ThumbnailUrl : string;
  l_Tags : list Tag;
  l_StartAt : Z;
  l_EndAt : Z
}.

(** ** The entity cache *)

Module Cache.

Section Ops.
Context {K : Type} `{Countable K} {V : Type}.

(** Modelled from the spec: the generic [Cache] type behind [NewCache]
    (its [Get], [Set], [Delete], [All] and [Init] methods) is not part of
    the sources.  Section 4.1 of the specification describes it as a
    key-value store: [Get] is a lookup, [Set] an unconditional overwrite,
    [Delete] a removal, [All] a snapshot of the stored values and [Init]
    a reset to empty. *)
Definition Get (c : gmap K V) (key : K) : option V := c !! key.

(** Modelled from the spec: [Set] of the absent [Cache] type, an
    unconditional overwrite (named [Set_] since [Set] is a sort). *)
Definition Set_ (c : gmap K V) (key : K) (value : V) : gmap K V :=
  <[key := value]> c.

(** Modelled from the spec: [Delete] of the absent [Cache] type. *)
Definition Delete (c : gmap K V) (key : K) : gmap K V := delete key c.

(** Modelled from the spec: [All] of the absent [Cache] type, the stored
    values in the (unspecified) iteration order of the map. *)
Definition All (c : gmap K V) : list V := (map_to_list c).*2.

(** Modelled from the spec: [Init] of the absent [Cache] type. *)
Definition Init (c : gmap K V) : gmap K V := ∅.
End Ops.

End Cache.

(** The caches the reservation path reads or writes. *)
Record Caches := {
  tagModelCache : gmap Z TagModel;
  userModelByIdCache : gmap Z UserModel;
  userModelByNameCache : gmap string UserModel;
  livestreamModelByIdCache : gmap Z LivestreamModel;
  livestreamModelByUserIDCache : gmap Z (list LivestreamModel)
}.

(** ** The store *)

Record DB := {
  reservation_slots : list ReservationSlotModel;
  livestreams : list LivestreamModel;
  livestream_tags : list LivestreamTagModel;
  livestreams_auto_increment : Z;
  livestream_tags_auto_increment : Z
}.

Record State := { db : DB; caches : Caches }.

(** Errors of the environment.  A field set to [true] makes the matching
    storage call of the handler return a non-nil [err]. *)
Record Oracle := {
  selectSlotsErr : bool;
  countErr : bool;
  beginErr : bool;
  updateErr : bool;
  insertLivestreamErr : bool;
  lastInsertIdErr : bool;
  insertTagsErr : bool;
  commitErr : bool;
  selectTagsErr : bool;
  (** what [fillUserResponse] finds for the owner (theme and icon hash come
      from the theme table and the icon store, outside this model); [None]
      is its error return *)
  ownerTheme : option (Theme * string)
}.

(** *** Statements *)

(** [WHERE start_at >= ? AND end_at <= ?] *)
Definition in_range (startAt endAt : Z) (s : ReservationSlotModel) : bool :=
  (startAt <=? slot_StartAt s) && (slot_EndAt s <=? endAt).

(** [SELECT * FROM reservation_slots WHERE start_at >= ? AND end_at <= ? FOR UPDATE] *)
Definition SelectSlotsForUpdate (d : DB) (startAt endAt : Z)
  : list ReservationSlotModel :=
  List.filter (in_range startAt endAt) (reservation_slots d).

(** One disjunct [(start_at = %d AND end_at = %d AND slot > 0)]. *)
Definition condition_holds (r : ReservationSlotModel) (c : Z * Z) : bool :=
  (slot_StartAt r =? c.1) && (slot_EndAt r =? c.2) && (0 <? slot_Slot r).

(** [SELECT COUNT( * ) FROM reservation_slots WHERE c1 OR c2 OR ...].  The
    where clause is the list of its disjuncts.  With no disjunct the text
    ends in [WHERE ] and the server rejects it: the statement errors. *)
Definition SelectCount (d : DB) (conditions : list (Z * Z)) : option Z :=
  match conditions with
  | [] => None
  | _ :: _ =>
      Some (Z.of_nat (length
        (List.filter (fun r => existsb (condition_holds r) conditions)
                     (reservation_slots d))))
  end.

Definition decrement (s : ReservationSlotModel) : ReservationSlotModel :=
  {| slot_ID := slot_ID s; slot_Slot := slot_Slot s - 1;
     slot_StartAt := slot_StartAt s; slot_EndAt := slot_EndAt s |}.

(** [UPDATE reservation_slots SET slot = slot - 1 WHERE start_at >= ? AND end_at <= ?] *)
Definition UpdateSlots (d : DB) (startAt endAt : Z) : DB :=
  {| reservation_slots :=
       map (fun s => if in_range startAt endAt s then decrement s else s)
           (reservation_slots d);
     livestreams := livestreams d;
     livestream_tags := livestream_tags d;
     livestreams_auto_increment := livestreams_auto_increment d;
     livestream_tags_auto_increment := livestream_tags_auto_increment d |}.

Definition withID (m : LivestreamModel) (id : Z) : LivestreamModel :=
  {| ls_ID := id; ls_UserID := ls_UserID m; ls_Title := ls_Title m;
     ls_Description := ls_Description m; ls_PlaylistUrl := ls_PlaylistUrl m;
     ls_ThumbnailUrl := ls_ThumbnailUrl m; ls_StartAt := ls_StartAt m;
     ls_EndAt := ls_EndAt m |}.

(** [INSERT INTO livestreams (...) VALUES (...)]: the row gets the next
    generated id, which is also the statement's [LastInsertId]. *)
Definition InsertLivestream (d : DB) (m : LivestreamModel) : DB * Z :=
  let id := livestreams_auto_increment d in
  ({| reservation_slots := reservation_slots d;
      livestreams := livestreams d ++ [withID m id];
      livestream_tags := livestream_tags d;
      livestreams_auto_increment := id + 1;
      livestream_tags_auto_increment := livestream_tags_auto_increment d |},
   id).

(** Rows of a bulk insert get consecutive generated ids. *)
Fixpoint number_tags (next : Z) (rows : list LivestreamTagModel)
  : list LivestreamTagModel :=
  match rows with
  | [] => []
  | r :: rest =>
      {| lt_ID := next; lt_LivestreamID := lt_LivestreamID r;
         lt_TagID := lt_TagID r |} :: number_tags (next + 1) rest
  end.

(** [INSERT INTO livestream_tags (livestream_id, tag_id) VALUES (...)] *)
Definition InsertLivestreamTags (d : DB) (rows : list LivestreamTagModel) : DB :=
  let next := livestream_tags_auto_increment d in
  {| reservation_slots := reservation_slots d;
     livestreams := livestreams d;
     livestream_tags := livestream_tags d ++ number_tags next rows;
     livestreams_auto_increment := livestreams_auto_increment d;
     livestream_tags_auto_increment := next + Z.of_nat (length rows) |}.

(** [SELECT * FROM livestream_tags WHERE livestream_id = ?] *)
Definition SelectLivestreamTags (d : DB) (livestreamID : Z)
  : list LivestreamTagModel :=
  List.filter (fun r => lt_LivestreamID r =? livestreamID) (livestream_tags d).

(** ** Responses and the log of storage and cache calls *)

Inductive message :=
| BadReservationTimeRange
| FailedToGetReservationSlots
| CannotReserve (termStartAt termEndAt startAt endAt : Z)
| FailedToBeginTransaction
| FailedToUpdateReservationSlot
| FailedToInsertLivestream
| FailedToGetLastInsertedLivestreamID
| FailedToInsertLivestreamTag
| FailedToCommit
| FailedToFillLivestream.

Definition StatusCreated : Z := 201.
Definition StatusBadRequest : Z := 400.
Definition StatusInternalServerError : Z := 500.

Inductive response :=
| HTTPError (code : Z) (m : message)
| JSON (code : Z) (body : Livestream).

(** The handle a statement is issued on: the pool [dbConn], where every
    statement is its own auto-committed unit, or the transaction [tx]. *)
Inductive handle := DbConn | Tx.

Inductive event :=
| EvSelectSlotsForUpdate (h : handle)
| EvSelectCount (h : handle)
| EvBeginTxx
| EvUpdateSlots (h : handle)
| EvInsertLivestream (h : handle)
| EvCacheSetById (id : Z)
| EvCacheSetByUserID (userID : Z)
| EvInsertLivestreamTags (h : handle)
| EvCommit
| EvRollback
| EvFillLivestreamResponse.

Record outcome := { resp : response; final : State; trace : list event }.

Definition ret (r : response) (s : State) : outcome :=
  {| resp := r; final := s; trace := [] |}.

(** A call logged before the rest of the run. *)
Definition emit (e : event) (o : outcome) : outcome :=
  let 'Build_outcome r s t := o in
  {| resp := r; final := s; trace := e :: t |}.

(** A deferred call, logged when the function returns. *)
Definition defer (e : event) (o : outcome) : outcome :=
  let 'Build_outcome r s t := o in
  {| resp := r; final := s; trace := t ++ [e] |}.

(** The failure classes of the specification. *)
Definition isOutOfRange (r : response) : bool :=
  match r with HTTPError 400 BadReservationTimeRange => true | _ => false end.

Definition isOverbooked (r : response) : bool :=
  match r with HTTPError 400 (CannotReserve _ _ _ _) => true | _ => false end.

Definition isStorageFailure (r : response) : bool :=
  match r with HTTPError 500 _ => true | _ => false end.

Definition isCreated (r : response) : bool :=
  match r with JSON 201 _ => true | _ => false end.

(** ** The handler *)

Definition termStartAt : Time.t := Time.Date 2023 11 25 1.
Definition termEndAt : Time.t := Time.Date 2024 11 25 1.

(** The condition under which the handler answers
    [bad reservation time range]. *)
Definition badTimeRange (req : ReserveLivestreamRequest) : bool :=
  let reserveStartAt := Time.Unix (req_StartAt req) in
  let reserveEndAt := Time.Unix (req_EndAt req) in
  (Time.Equal reserveStartAt termEndAt || Time.After reserveStartAt termEndAt)
  || (Time.Equal reserveEndAt termStartAt || Time.Before reserveEndAt termStartAt).

Definition newLivestreamModel (userID : Z) (req : ReserveLivestreamRequest)
  : LivestreamModel :=
  {| ls_ID := 0; ls_UserID := userID; ls_Title := req_Title req;
     ls_Description := req_Description req;
     ls_PlaylistUrl := req_PlaylistUrl req;
     ls_ThumbnailUrl := req_ThumbnailUrl req;
     ls_StartAt := req_StartAt req; ls_EndAt := req_EndAt req |}.

Definition newLivestreamTagModels (livestreamID : Z) (tags : list Z)
  : list LivestreamTagModel :=
  map (fun t => {| lt_ID := 0; lt_LivestreamID := livestreamID; lt_TagID := t |})
      tags.

(** [fillUserResponse], with the theme and the icon hash taken from the
    oracle. *)
Definition fillUserResponse (o : Oracle) (userModel : UserModel) : option User :=
  match ownerTheme o with
  | None => None
  | Some (theme, iconHash) =>
      Some {| user_ID := um_ID userModel; user_Name := um_Name userModel;
              user_DisplayName := um_DisplayName userModel;
              user_Description := um_Description userModel;
              user_Theme := theme; user_IconHash := iconHash |}
  end.

Definition tagOfModel (t : TagModel) : Tag :=
  {| tag_ID := tagm_ID t; tag_Name := tagm_Name t |}.

(** [fillLivestreamResponse]: the owner and the tags come from the caches,
    the tag associations from the store (read through [dbConn]). *)
Definition fillLivestreamResponse (o : Oracle) (s : State)
    (livestreamModel : LivestreamModel) : option Livestream :=
  match Cache.Get (userModelByIdCache (caches s)) (ls_UserID livestreamModel) with
  | None => None
  | Some ownerModel =>
      match fillUserResponse o ownerModel with
      | None => None
      | Some owner =>
          if selectTagsErr o then None
          else
            let livestreamTagModels :=
              SelectLivestreamTags (db s) (ls_ID livestreamModel) in
            match mapM (fun r => Cache.Get (tagModelCache (caches s)) (lt_TagID r))
                       livestreamTagModels with
            | None => None
            | Some tagModels =>
                Some {| l_ID := ls_ID livestreamModel; l_Owner := owner;
                        l_Title := ls_Title livestreamModel;
                        l_Description := ls_Description livestreamModel;
                        l_PlaylistUrl := ls_PlaylistUrl livestreamModel;
                        l_ThumbnailUrl := ls_ThumbnailUrl livestreamModel;
                        l_Tags := map tagOfModel tagModels;
                        l_StartAt := ls_StartAt livestreamModel;
                        l_EndAt := ls_EndAt livestreamModel |}
            end
      end
  end.

(** The two cache writes that follow [LastInsertId]. *)
Definition cacheLivestream (c : Caches) (m : LivestreamModel) : Caches :=
  let byId := Cache.Set_ (livestreamModelByIdCache c) (ls_ID m) m in
  let livestreamModelsByUserID :=
    match Cache.Get (livestreamModelByUserIDCache c) (ls_UserID m) with
    | Some l => l
    | None => []
    end in
  {| tagModelCache := tagModelCache c;
     userModelByIdCache := userModelByIdCache c;
     userModelByNameCache := userModelByNameCache c;
     livestreamModelByIdCache := byId;
     livestreamModelByUserIDCache :=
       Cache.Set_ (livestreamModelByUserIDCache c) (ls_UserID m)
                  (livestreamModelsByUserID ++ [m]) |}.

(** The part of the handler that runs after [BeginTxx] succeeded.  [d0] is
    the committed store, which every return before a successful [Commit]
    leaves in place (the deferred [Rollback] drops the pending writes). *)
Definition reserveInTx (o : Oracle) (userID : Z)
    (req : ReserveLivestreamRequest) (s : State) : outcome :=
  let d0 := db s in
  let c0 := caches s in
  let livestreamModel := newLivestreamModel userID req in
  emit (EvUpdateSlots Tx)
    (if updateErr o then
       ret (HTTPError StatusInternalServerError FailedToUpdateReservationSlot) s
     else
       let d1 := UpdateSlots d0 (req_StartAt req) (req_EndAt req) in
       emit (EvInsertLivestream Tx)
         (if insertLivestreamErr o then
            ret (HTTPError StatusInternalServerError FailedToInsertLivestream) s
          else
            let '(d2, livestreamID) := InsertLivestream d1 livestreamModel in
            if lastInsertIdErr o then
              ret (HTTPError StatusInternalServerError
                     FailedToGetLastInsertedLivestreamID) s
            else
              let livestreamModel := withID livestreamModel livestreamID in
              let c1 := cacheLivestream c0 livestreamModel in
              let rolledBack := {| db := d0; caches := c1 |} in
              emit (EvCacheSetById livestreamID)
                (emit (EvCacheSetByUserID (ls_UserID livestreamModel))
                   (let livestreamTagModels :=
                      newLivestreamTagModels livestreamID (req_Tags req) in
                    let afterTags (d3 : DB) : outcome :=
                      emit EvCommit
                        (if commitErr o then
                           ret (HTTPError StatusInternalServerError FailedToCommit)
                               rolledBack
                         else
                           let committed := {| db := d3; caches := c1 |} in
                           match fillLivestreamResponse o committed livestreamModel with
                           | None =>
                               emit EvFillLivestreamResponse
                                 (ret (HTTPError StatusInternalServerError
                                         FailedToFillLivestream) committed)
                           | Some livestream =>
                               emit EvFillLivestreamResponse
                                 (ret (JSON StatusCreated livestream) committed)
                           end) in
                    if (0 <? Z.of_nat (length livestreamTagModels)) then
                      emit (EvInsertLivestreamTags Tx)
                        (if insertTagsErr o then
                           ret (HTTPError StatusInternalServerError
                                  FailedToInsertLivestreamTag) rolledBack
                         else afterTags (InsertLivestreamTags d2 livestreamTagModels))
                    else afterTags d2)))).

(** [reserveLivestreamHandler], from the decoded request of an authenticated
    caller on.  The slot query and the availability count go through
    [dbConn]; the transaction begins after the count has been checked. *)
Definition reserveLivestreamHandler (o : Oracle) (userID : Z)
    (req : ReserveLivestreamRequest) (s : State) : outcome :=
  if badTimeRange req then
    ret (HTTPError StatusBadRequest BadReservationTimeRange) s
  else
    emit (EvSelectSlotsForUpdate DbConn)
      (if selectSlotsErr o then
         ret (HTTPError StatusInternalServerError FailedToGetReservationSlots) s
       else
         let slots :=
           SelectSlotsForUpdate (db s) (req_StartAt req) (req_EndAt req) in
         let conditions :=
           map (fun sl => (slot_StartAt sl, slot_EndAt sl)) slots in
         emit (EvSelectCount DbConn)
           (match (if countErr o then None else SelectCount (db s) conditions) with
            | None =>
                ret (HTTPError StatusInternalServerError
                       FailedToGetReservationSlots) s
            | Some count =>
                if count <? 1 then
                  ret (HTTPError StatusBadRequest
                         (CannotReserve (Time.toUnix termStartAt)
                            (Time.toUnix termEndAt)
                            (req_StartAt req) (req_EndAt req))) s
                else
                  emit EvBeginTxx
                    (if beginErr o then
                       ret (HTTPError StatusInternalServerError
                              FailedToBeginTransaction) s
                     else defer EvRollback (reserveInTx o userID req s))
            end)).

(** A sequence of calls, each with its own environment, run one after the
    other. *)
Fixpoint reserveAll (calls : list (Oracle * Z * ReserveLivestreamRequest))
    (s : State) : State :=
  match calls with
  | [] => s
  | (o, userID, req) :: rest =>
      reserveAll rest (final (reserveLivestreamHandler o userID req s))
  end.

(** ** Cache population at initialization *)

(** The loop [for _, r := range records { cache.Set(key(r), r) }]. *)
Definition BulkLoad {K : Type} `{Countable K} {V : Type} (key : V -> K)
    (records : list V) (c : gmap K V) : gmap K V :=
  foldl (fun c r => Cache.Set_ c (key r) r) c records.

(** The cache part of [initializeHandler]: [initCaches], then the tags and
    the users read from the store. *)
Definition initializeCaches (tags : list TagModel) (users : list UserModel)
  : Caches :=
  {| tagModelCache := BulkLoad tagm_ID tags (Cache.Init ∅);
     userModelByIdCache := BulkLoad um_ID users (Cache.Init ∅);
     userModelByNameCache := BulkLoad um_Name users (Cache.Init ∅);
     livestreamModelByIdCache := Cache.Init ∅;
     livestreamModelByUserIDCache := Cache.Init ∅ |}.

(** ** The availability count of the specification *)

(** The number of slots with boundaries inside the requested range whose
    remaining capacity is greater than zero. *)
Definition CountAvailable (d : DB) (startAt endAt : Z) : Z :=
  Z.of_nat (length
    (List.filter (fun r => in_range startAt endAt r && (0 <? slot_Slot r))
                 (reservation_slots d))).

(** ** Fixtures *)

Module Fixture.

Definition noErrors : Oracle :=
  {| selectSlotsErr := false; countErr := false; beginErr := false;
     updateErr := false; insertLivestreamErr := false;
     lastInsertIdErr := false; insertTagsErr := false; commitErr := false;
     selectTagsErr := false;
     ownerTheme := Some ({| theme_ID := 1; theme_DarkMode := false |},
                         "00"%string) |}.

Definition commitFails : Oracle :=
  {| selectSlotsErr := false; countErr := false; beginErr := false;
     updateErr := false; insertLivestreamErr := false;
     lastInsertIdErr := false; insertTagsErr := false; commitErr := true;
     selectTagsErr := false;
     ownerTheme := Some ({| theme_ID := 1; theme_DarkMode := false |},
                         "00"%string) |}.

(** 2023-11-25 01:00:00 UTC, the start of the term, as Unix seconds. *)
Definition T0 : Z := 1700874000.
Definition hour : Z := 3600.

Definition alice : UserModel :=
  {| um_ID := 1; um_Name := "alice"; um_DisplayName := "Alice";
     um_Description := ""; um_HashedPassword := "" |}.

Definition chat : TagModel := {| tagm_ID := 7; tagm_Name := "chat" |}.

Definition slot (id cap startAt endAt : Z) : ReservationSlotModel :=
  {| slot_ID := id; slot_Slot := cap; slot_StartAt := startAt;
     slot_EndAt := endAt |}.

(** Two one-hour slots at the start of the term, each of capacity [cap]. *)
Definition calendar (cap : Z) : DB :=
  {| reservation_slots :=
       [slot 1 cap T0 (T0 + hour); slot 2 cap (T0 + hour) (T0 + 2 * hour)];
     livestreams := []; livestream_tags := [];
     livestreams_auto_increment := 1;
     livestream_tags_auto_increment := 1 |}.

Definition initial (cap : Z) : State :=
  {| db := calendar cap; caches := initializeCaches [chat] [alice] |}.

Definition request (tags : list Z) (startAt endAt : Z)
  : ReserveLivestreamRequest :=
  {| req_Tags := tags; req_Title := "title"; req_Description := "";
     req_PlaylistUrl := ""; req_ThumbnailUrl := "";
     req_StartAt := startAt; req_EndAt := endAt |}.

End Fixture.

(** ** Statistics: the rankings

    [getLivestreamStatisticsHandler] and [getUserStatisticsHandler] build a
    ranking from the rows of one aggregate query, sort it with [sort.Sort]
    and walk it from the end to find the rank of the requested entry. *)

Record LivestreamRankingEntry := { lre_LivestreamID : Z; lre_Score : Z }.

Record UserRankingEntry := { ure_Username : string; ure_Score : Z }.

(** [LivestreamRanking.Less(i, j)], as a function of the entries [r[i]] and
    [r[j]]. *)
Definition LivestreamRanking_Less (ri rj : LivestreamRankingEntry) : bool :=
  if lre_Score ri =? lre_Score rj
  then lre_LivestreamID ri <? lre_LivestreamID rj
  else lre_Score ri <? lre_Score rj.

(** [UserRanking.Less(i, j)]; [<] on Go strings is the bytewise
    lexicographic order. *)
Definition UserRanking_Less (ri rj : UserRankingEntry) : bool :=
  if ure_Score ri =? ure_Score rj
  then String.ltb (ure_Username ri) (ure_Username rj)
  else ure_Score ri <? ure_Score rj.

(** [sort.Sort]: the entries in ascending order of [Less].  Both [Less]
    functions are strict total orders on entries, so the sorted arrangement
    is unique and does not depend on the library's algorithm; it is computed
    here by insertion. *)
Fixpoint insert_sorted {E : Type} (less : E -> E -> bool) (e : E)
    (sorted : list E) : list E :=
  match sorted with
  | [] => [e]
  | x :: rest =>
      if less e x then e :: x :: rest else x :: insert_sorted less e rest
  end.

Definition Sort {E : Type} (less : E -> E -> bool) (ranking : list E) : list E :=
  foldr (insert_sorted less) [] ranking.

(** The loop
    [rank = 1; for i := len(ranking) - 1; i >= 0; i-- { if hit(ranking[i]) { break }; rank++ }],
    as a walk over the entries from the last to the first; [rank] is an
    [int64]. *)
Fixpoint rankLoop {E : Type} (hit : E -> bool) (fromLast : list E) (rank : Z)
  : Z :=
  match fromLast with
  | [] => rank
  | entry :: rest =>
      if hit entry then rank else rankLoop hit rest (wrap64 (rank + 1))
  end.

(** A row of the aggregate query of [getLivestreamStatisticsHandler]. *)
Record LivestreamScoreRow := {
  lsr_LivestreamID : Z;
  lsr_Reactions : Z;
  lsr_TotalTips : Z
}.

(** A row of the aggregate query of [getUserStatisticsHandler]. *)
Record UserScoreRow := {
  usr_Username : string;
  usr_Reactions : Z;
  usr_TotalTips : Z
}.

(** The rank computed by [getLivestreamStatisticsHandler] from the rows of
    its aggregate query. *)
Definition livestreamRank (entries : list LivestreamScoreRow)
    (livestreamID : Z) : Z :=
  let ranking :=
    map (fun entry =>
           {| lre_LivestreamID := lsr_LivestreamID entry;
              lre_Score := wrap64 (lsr_Reactions entry + lsr_TotalTips entry) |})
        entries in
  let ranking := Sort LivestreamRanking_Less ranking in
  rankLoop (fun entry => lre_LivestreamID entry =? livestreamID)
           (rev ranking) 1.

(** The rank computed by [getUserStatisticsHandler] from the rows of its
    aggregate query. *)
Definition userRank (entries : list UserScoreRow) (username : string) : Z :=
  let ranking :=
    map (fun entry =>
           {| ure_Username := usr_Username entry;
              ure_Score := wrap64 (usr_Reactions entry + usr_TotalTips entry) |})
        entries in
  let ranking := Sort UserRanking_Less ranking in
  rankLoop (fun entry => String.eqb (ure_Username entry) username)
           (rev ranking) 1.

(** The order [sort.Sort] establishes: no entry is [Less] than an entry
    placed before it. *)
Fixpoint ascending {E : Type} (less : E -> E -> bool) (ranking : list E)
  : Prop :=
  match ranking with
  | [] => True
  | x :: rest => Forall (fun y => less y x = false) rest /\ ascending less rest
  end.

(** ** Sessions *)

(** A value stored in [sess.Values] (a [map[interface{}]interface{}]), by
    its dynamic type: the handlers only store [int64] and [string] values
    and only test for [int64]. *)
Inductive SessionValue :=
| VInt64 (n : Z)
| VString (s : string)
| VOther.

(** [sess.Values] is a map from keys to such values. *)
Definition Session : Type := gmap string SessionValue.

Definition defaultSessionIDKey : string := "SESSIONID".
Definition defaultSessionExpiresKey : string := "EXPIRES".
Definition defaultUserIDKey : string := "USERID".
Definition defaultUsernameKey : string := "USERNAME".

Inductive sessionMessage :=
| FailedToGetSession
| FailedToGetExpires
| FailedToGetUserID
| SessionHasExpired.

Definition StatusUnauthorized : Z := 401.
Definition StatusForbidden : Z := 403.

(** The result of [verifyUserSession]: [nil], an HTTP error, or a run-time
    panic of the unchecked type assertion [sessionExpires.(int64)]. *)
Inductive sessionCheck :=
| SessionOk
| SessionError (code : Z) (m : sessionMessage)
| SessionPanic.

(** [verifyUserSession].  [sess] is what [session.Get] returns ([None] for
    its error) and [now] is [time.Now().Unix()]. *)
Definition verifyUserSession (sess : option Session) (now : Z) : sessionCheck :=
  match sess with
  | None => SessionError StatusUnauthorized FailedToGetSession
  | Some values =>
      match values !! defaultSessionExpiresKey with
      | None => SessionError StatusForbidden FailedToGetExpires
      | Some sessionExpires =>
          match values !! defaultUserIDKey with
          | Some (VInt64 _) =>
              match sessionExpires with
              | VInt64 expires =>
                  if expires <? now
                  then SessionError StatusUnauthorized SessionHasExpired
                  else SessionOk
              | _ => SessionPanic
              end
          | _ => SessionError StatusUnauthorized FailedToGetUserID
          end
      end
  end.

(** The four assignments to [sess.Values] at the end of [loginHandler];
    [now] is [time.Now()] in Unix seconds, and
    [sessionEndAt = time.Now().Add(1 * time.Hour)]. *)
Definition loginSessionValues (values : Session) (sessionID : string)
    (userModel : UserModel) (now : Z) : Session :=
  let sessionEndAt := wrap64 (now + 3600) in
  <[defaultSessionExpiresKey := VInt64 sessionEndAt]>
    (<[defaultUsernameKey := VString (um_Name userModel)]>
       (<[defaultUserIDKey := VInt64 (um_ID userModel)]>
          (<[defaultSessionIDKey := VString sessionID]> values))).

(** *** [loginHandler] *)

Record LoginRequest := { login_Username : string; login_Password : string }.

(** The result of [bcrypt.CompareHashAndPassword]. *)
Inductive bcryptResult :=
| BcryptNil
| ErrMismatchedHashAndPassword
| BcryptOtherError.

(** What [loginHandler] takes from its environment. *)
Record LoginEnv := {
  loginBeginErr : bool;
  (** an error of the user query other than [sql.ErrNoRows] *)
  loginGetErr : bool;
  loginCommitErr : bool;
  CompareHashAndPassword : string -> string -> bcryptResult;
  (** [time.Now()], in Unix seconds *)
  loginNow : Z;
  (** [uuid.NewString()] *)
  NewString : string;
  (** [session.Get], [None] for its error *)
  loginSession : option Session;
  loginSaveErr : bool
}.

Inductive loginMessage :=
| LoginFailedToBeginTransaction
| InvalidUsernameOrPassword
| LoginFailedToGetUser
| LoginFailedToCommit
| FailedToCompareHashAndPassword
| LoginFailedToGetSession
| FailedToSaveSession.

Definition StatusOK : Z := 200.

(** An HTTP error, or [204]-style empty answer [c.NoContent(code)] together
    with the session values saved into the response cookie. *)
Inductive loginResponse :=
| LoginError (code : Z) (m : loginMessage)
| LoginNoContent (code : Z) (saved : Session).

(** [loginHandler], from the decoded request on; [users] is the user table
    ([SELECT * FROM users WHERE name = ?] takes the first matching row). *)
Definition loginHandler (env : LoginEnv) (users : list UserModel)
    (req : LoginRequest) : loginResponse :=
  if loginBeginErr env then
    LoginError StatusInternalServerError LoginFailedToBeginTransaction
  else if loginGetErr env then
    LoginError StatusInternalServerError LoginFailedToGetUser
  else
    match List.find (fun u => String.eqb (um_Name u) (login_Username req))
                    users with
    | None => LoginError StatusUnauthorized InvalidUsernameOrPassword
    | Some userModel =>
        if loginCommitErr env then
          LoginError StatusInternalServerError LoginFailedToCommit
        else
          match CompareHashAndPassword env (um_HashedPassword userModel)
                  (login_Password req) with
          | ErrMismatchedHashAndPassword =>
              LoginError StatusUnauthorized InvalidUsernameOrPassword
          | BcryptOtherError =>
              LoginError StatusInternalServerError
                FailedToCompareHashAndPassword
          | BcryptNil =>
              match loginSession env with
              | None => LoginError StatusUnauthorized LoginFailedToGetSession
              | Some values =>
                  let values :=
                    loginSessionValues values (NewString env) userModel
                      (loginNow env) in
                  if loginSaveErr env then
                    LoginError StatusInternalServerError FailedToSaveSession
                  else LoginNoContent StatusOK values
              end
          end
    end.

(** ** Livecomments and moderation *)

Record PostLivecommentRequest := { plr_Comment : string; plr_Tip : Z }.

Record LivecommentModel := {
  lc_ID : Z;
  lc_UserID : Z;
  lc_LivestreamID : Z;
  lc_Comment : string;
  lc_Tip : Z;
  lc_CreatedAt : Z
}.

Record Livecomment := {
  c_ID : Z;
  c_User : User;
  c_Livestream : Livestream;
  c_Comment : string;
  c_Tip : Z;
  c_CreatedAt : Z
}.

Record NGWord := {
  ng_ID : Z;
  ng_UserID : Z;
  ng_LivestreamID : Z;
  ng_Word : string;
  ng_CreatedAt : Z
}.

(** The tables [ng_words] and [livecomments], with their id generators. *)
Record CommentDB := {
  ng_words : list NGWord;
  ng_words_auto_increment : Z;
  livecomments : list LivecommentModel;
  livecomments_auto_increment : Z
}.

(** [strings.HasPrefix], on byte strings. *)
Fixpoint HasPrefix (s prefix : string) {struct prefix} : bool :=
  match prefix with
  | EmptyString => true
  | String p prefix' =>
      match s with
      | EmptyString => false
      | String a s' => Ascii.eqb a p && HasPrefix s' prefix'
      end
  end.

(** [strings.Contains(s, substr)]: [substr] occurs in [s] at some position. *)
Fixpoint Contains (s substr : string) : bool :=
  HasPrefix s substr
  || match s with
     | EmptyString => false
     | String _ s' => Contains s' substr
     end.

(** The spam loop of [postLivecommentHandler]:
    [for _, ngword := range ngwords { if strings.Contains(comment, ngword.Word) { hitSpam++ }; if hitSpam >= 1 { return 400 } }].
    The result is [true] when the loop returns the error. *)
Fixpoint spamLoop (comment : string) (ngwords : list NGWord) (hitSpam : Z)
  : bool :=
  match ngwords with
  | [] => false
  | ngword :: rest =>
      let hitSpam :=
        if Contains comment (ng_Word ngword) then hitSpam + 1 else hitSpam in
      if 1 <=? hitSpam then true else spamLoop comment rest hitSpam
  end.

(** [SELECT id, user_id, livestream_id, word FROM ng_words WHERE user_id = ? AND livestream_id = ?] *)
Definition SelectNGWordsOfOwner (c : CommentDB) (userID livestreamID : Z)
  : list NGWord :=
  List.filter
    (fun w => (ng_UserID w =? userID) && (ng_LivestreamID w =? livestreamID))
    (ng_words c).

(** [SELECT * FROM ng_words WHERE livestream_id = ?] *)
Definition SelectNGWords (c : CommentDB) (livestreamID : Z) : list NGWord :=
  List.filter (fun w => ng_LivestreamID w =? livestreamID) (ng_words c).

(** [INSERT INTO livecomments (...) VALUES (...)], with its [LastInsertId]. *)
Definition InsertLivecomment (c : CommentDB) (m : LivecommentModel)
  : CommentDB * Z :=
  let id := livecomments_auto_increment c in
  ({| ng_words := ng_words c;
      ng_words_auto_increment := ng_words_auto_increment c;
      livecomments :=
        livecomments c
        ++ [{| lc_ID := id; lc_UserID := lc_UserID m;
               lc_LivestreamID := lc_LivestreamID m;
               lc_Comment := lc_Comment m; lc_Tip := lc_Tip m;
               lc_CreatedAt := lc_CreatedAt m |}];
      livecomments_auto_increment := id + 1 |},
   id).

(** [INSERT INTO ng_words(...) VALUES (...)], with its [LastInsertId]. *)
Definition InsertNGWord (c : CommentDB) (w : NGWord) : CommentDB * Z :=
  let id := ng_words_auto_increment c in
  ({| ng_words :=
        ng_words c
        ++ [{| ng_ID := id; ng_UserID := ng_UserID w;
               ng_LivestreamID := ng_LivestreamID w; ng_Word := ng_Word w;
               ng_CreatedAt := ng_CreatedAt w |}];
      ng_words_auto_increment := id + 1;
      livecomments := livecomments c;
      livecomments_auto_increment := livecomments_auto_increment c |},
   id).

(** [fillLivecommentResponse].  [fillUserResponse] is called for the author
    of the comment and, inside [fillLivestreamResponse], for the owner of
    the livestream; each call has its own environment. *)
Definition fillLivecommentResponse (oAuthor oOwner : Oracle) (s : State)
    (livecommentModel : LivecommentModel) : option Livecomment :=
  match Cache.Get (userModelByIdCache (caches s)) (lc_UserID livecommentModel) with
  | None => None
  | Some commentOwnerModel =>
      match fillUserResponse oAuthor commentOwnerModel with
      | None => None
      | Some commentOwner =>
          match Cache.Get (livestreamModelByIdCache (caches s))
                  (lc_LivestreamID livecommentModel) with
          | None => None
          | Some livestreamModel =>
              match fillLivestreamResponse oOwner s livestreamModel with
              | None => None
              | Some livestream =>
                  Some {| c_ID := lc_ID livecommentModel;
                          c_User := commentOwner;
                          c_Livestream := livestream;
                          c_Comment := lc_Comment livecommentModel;
                          c_Tip := lc_Tip livecommentModel;
                          c_CreatedAt := lc_CreatedAt livecommentModel |}
              end
          end
      end
  end.

(** Errors and inputs of the environment of [postLivecommentHandler]. *)
Record CommentEnv := {
  ngwordsErr : bool;
  insertLivecommentErr : bool;
  livecommentLastInsertIdErr : bool;
  (** [time.Now().Unix()] *)
  commentNow : Z;
  authorFill : Oracle;
  ownerFill : Oracle
}.

Inductive commentMessage :=
| LivestreamNotFound
| FailedToGetNGWords
| CommentJudgedSpam
| FailedToInsertLivecomment
| FailedToGetLastInsertedLivecommentID
| FailedToFillLivecomment.

Definition StatusNotFound : Z := 404.

Inductive commentResponse :=
| CommentError (code : Z) (m : commentMessage)
| CommentJSON (code : Z) (body : Livecomment).

(** [postLivecommentHandler], from the verified session ([userID]), the
    parsed path parameter and the decoded body on.  The statements run on
    [dbConn], outside any transaction: each one is committed as it runs. *)
Definition postLivecommentHandler (env : CommentEnv) (userID livestreamID : Z)
    (req : PostLivecommentRequest) (s : State) (c : CommentDB)
  : commentResponse * CommentDB :=
  match Cache.Get (livestreamModelByIdCache (caches s)) livestreamID with
  | None => (CommentError StatusNotFound LivestreamNotFound, c)
  | Some livestreamModel =>
      if ngwordsErr env then
        (CommentError StatusInternalServerError FailedToGetNGWords, c)
      else
        let ngwords :=
          SelectNGWordsOfOwner c (ls_UserID livestreamModel)
                               (ls_ID livestreamModel) in
        if spamLoop (plr_Comment req) ngwords 0 then
          (CommentError StatusBadRequest CommentJudgedSpam, c)
        else
          let livecommentModel :=
            {| lc_ID := 0; lc_UserID := userID;
               lc_LivestreamID := livestreamID;
               lc_Comment := plr_Comment req; lc_Tip := plr_Tip req;
               lc_CreatedAt := commentNow env |} in
          if insertLivecommentErr env then
            (CommentError StatusInternalServerError FailedToInsertLivecomment, c)
          else
            let '(c1, livecommentID) := InsertLivecomment c livecommentModel in
            if livecommentLastInsertIdErr env then
              (CommentError StatusInternalServerError
                 FailedToGetLastInsertedLivecommentID, c1)
            else
              let livecommentModel :=
                {| lc_ID := livecommentID; lc_UserID := userID;
                   lc_LivestreamID := livestreamID;
                   lc_Comment := plr_Comment req; lc_Tip := plr_Tip req;
                   lc_CreatedAt := commentNow env |} in
              match fillLivecommentResponse (authorFill env) (ownerFill env)
                      s livecommentModel with
              | None =>
                  (CommentError StatusInternalServerError
                     FailedToFillLivecomment, c1)
              | Some livecomment => (CommentJSON StatusCreated livecomment, c1)
              end
  end.

(** Errors and inputs of the environment of [moderateHandler]. *)
Record ModerateEnv := {
  modBeginErr : bool;
  modInsertErr : bool;
  modLastInsertIdErr : bool;
  modSelectErr : bool;
  modDeleteErr : bool;
  modCommitErr : bool;
  (** [time.Now().Unix()] *)
  modNow : Z
}.

Inductive moderateMessage :=
| ModFailedToBeginTransaction
| CannotModerateOthersLivestream
| FailedToInsertNGWord
| FailedToGetLastInsertedNGWordID
| ModFailedToGetNGWords
| FailedToDeleteLivecomments
| ModFailedToCommit.

Inductive moderateResponse :=
| ModerateError (code : Z) (m : moderateMessage)
| ModerateJSON (code : Z) (word_id : Z).

(** The where clause that [moderateHandler] assembles,
    [livestream_id = ? AND comment LIKE '%w1%' OR comment LIKE '%w2%' OR ...]:
    [AND] binds tighter than [OR], so the livestream test belongs to the
    first disjunct only.  [like comment word] is the value of
    [comment LIKE '%word%'].  With no word the text ends in [AND] and the
    statement is rejected. *)
Definition deleteCondition (like : string -> string -> bool)
    (livestreamID : Z) (ngwords : list NGWord) (r : LivecommentModel)
  : option bool :=
  match ngwords with
  | [] => None
  | first :: others =>
      Some (((lc_LivestreamID r =? livestreamID)
             && like (lc_Comment r) (ng_Word first))
            || existsb (fun w => like (lc_Comment r) (ng_Word w)) others)
  end.

(** [DELETE FROM livecomments WHERE ...] with the assembled clause. *)
Definition DeleteLivecomments (like : string -> string -> bool)
    (c : CommentDB) (livestreamID : Z) (ngwords : list NGWord)
  : option CommentDB :=
  match ngwords with
  | [] => None
  | _ :: _ =>
      Some {| ng_words := ng_words c;
              ng_words_auto_increment := ng_words_auto_increment c;
              livecomments :=
                List.filter
                  (fun r =>
                     negb (default false
                             (deleteCondition like livestreamID ngwords r)))
                  (livecomments c);
              livecomments_auto_increment := livecomments_auto_increment c |}
  end.

(** [moderateHandler], from the verified session ([userID]), the parsed
    path parameter and the decoded body ([NGWord]) on.  Every statement
    runs in the transaction: a return before the successful [Commit]
    leaves the tables as they were. *)
Definition moderateHandler (like : string -> string -> bool)
    (env : ModerateEnv) (userID livestreamID : Z) (NGWord_ : string)
    (s : State) (c : CommentDB) : moderateResponse * CommentDB :=
  if modBeginErr env then
    (ModerateError StatusInternalServerError ModFailedToBeginTransaction, c)
  else
    match Cache.Get (livestreamModelByIdCache (caches s)) livestreamID with
    | None => (ModerateError StatusBadRequest CannotModerateOthersLivestream, c)
    | Some _ =>
        if modInsertErr env then
          (ModerateError StatusInternalServerError FailedToInsertNGWord, c)
        else
          let '(c1, wordID) :=
            InsertNGWord c {| ng_ID := 0; ng_UserID := userID;
                              ng_LivestreamID := livestreamID;
                              ng_Word := NGWord_;
                              ng_CreatedAt := modNow env |} in
          if modLastInsertIdErr env then
            (ModerateError StatusInternalServerError
               FailedToGetLastInsertedNGWordID, c)
          else if modSelectErr env then
            (ModerateError StatusInternalServerError ModFailedToGetNGWords, c)
          else
            let ngwords := SelectNGWords c1 livestreamID in
            match (if modDeleteErr env then None
                   else DeleteLivecomments like c1 livestreamID ngwords) with
            | None =>
                (ModerateError StatusInternalServerError
                   FailedToDeleteLivecomments, c)
            | Some c2 =>
                if modCommitErr env then
                  (ModerateError StatusInternalServerError ModFailedToCommit, c)
                else (ModerateJSON StatusCreated wordID, c2)
            end
    end.

(** ** [fillLivestreamResponseBulk] *)

(** What the bulk fill functions take from their environment. *)
Record BulkEnv := {
  (** an error of one of the queries of [fillUserResponseBulk] *)
  usersErr : bool;
  (** the entries of [themeMap] and [iconHashMap], both keyed by user id,
      that [fillUserResponseBulk] assembles from the theme and hash caches
      and its two queries; the hash as printed by [%x] *)
  themeAndHash : Z -> Theme * string;
  (** an error of the tag association query *)
  bulkTagsErr : bool
}.

(** [fillUserResponseBulk]: one [User] per model, in order, with the theme
    and the icon hash found under the model's id. *)
Definition fillUserResponseBulk (env : BulkEnv) (userModels : list UserModel)
  : option (list User) :=
  if usersErr env then None
  else
    Some (map (fun userModel =>
                 {| user_ID := um_ID userModel;
                    user_Name := um_Name userModel;
                    user_DisplayName := um_DisplayName userModel;
                    user_Description := um_Description userModel;
                    user_Theme := (themeAndHash env (um_ID userModel)).1;
                    user_IconHash := (themeAndHash env (um_ID userModel)).2 |})
              userModels).

(** [SELECT * FROM livestream_tags WHERE livestream_id IN (?)] *)
Definition SelectLivestreamTagsIn (d : DB) (livestreamIDs : list Z)
  : list LivestreamTagModel :=
  List.filter (fun r => existsb (Z.eqb (lt_LivestreamID r)) livestreamIDs)
              (livestream_tags d).

(** [for i := range owners { ownersMap[owners[i].ID] = owners[i] }] *)
Definition ownersMapOf (owners : list User) : gmap Z User :=
  foldl (fun ownersMap owner => <[user_ID owner := owner]> ownersMap) ∅ owners.

(** The loop that groups the tag associations by livestream id, each group
    in the order of the query result. *)
Definition livestreamTagsMapOf (allLivestreamTagModels : list LivestreamTagModel)
  : gmap Z (list LivestreamTagModel) :=
  foldl (fun livestreamTagsMap livestreamTagsModel =>
           match livestreamTagsMap !! lt_LivestreamID livestreamTagsModel with
           | None =>
               <[lt_LivestreamID livestreamTagsModel := [livestreamTagsModel]]>
                 livestreamTagsMap
           | Some group =>
               <[lt_LivestreamID livestreamTagsModel :=
                   group ++ [livestreamTagsModel]]> livestreamTagsMap
           end)
        ∅ allLivestreamTagModels.

(** The loop that reads the tag of every association from the tag cache;
    at the first miss it sets [gErr] and stops.  The result is the tags
    collected and whether [gErr] was set. *)
Fixpoint collectTagModels (tags : gmap Z TagModel)
    (allLivestreamTagModels : list LivestreamTagModel) : list TagModel * bool :=
  match allLivestreamTagModels with
  | [] => ([], false)
  | r :: rest =>
      match Cache.Get tags (lt_TagID r) with
      | None => ([], true)
      | Some tagModel =>
          let '(allTagModels, gErr) := collectTagModels tags rest in
          (tagModel :: allTagModels, gErr)
      end
  end.

(** [for i := range allTagModels { tagsMap[tagModel.ID] = Tag{...} }] *)
Definition tagsMapOf (allTagModels : list TagModel) : gmap Z Tag :=
  foldl (fun tagsMap tagModel => <[tagm_ID tagModel := tagOfModel tagModel]> tagsMap)
        ∅ allTagModels.

(** The zero value of [Tag], read from [tagsMap] at a missing key. *)
Definition zeroTag : Tag := {| tag_ID := 0; tag_Name := "" |}.

(** The last loop: one [Livestream] per model; at the first owner missing
    from [ownersMap] it sets [gErr] and stops. *)
Fixpoint fillLoop (ownersMap : gmap Z User)
    (livestreamTagsMap : gmap Z (list LivestreamTagModel))
    (tagsMap : gmap Z Tag) (livestreamModels : list LivestreamModel)
  : list Livestream * bool :=
  match livestreamModels with
  | [] => ([], false)
  | livestreamModel :: rest =>
      match ownersMap !! ls_UserID livestreamModel with
      | None => ([], true)
      | Some owner =>
          let livestreamTagModels :=
            default [] (livestreamTagsMap !! ls_ID livestreamModel) in
          let tags :=
            map (fun r => default zeroTag (tagsMap !! lt_TagID r))
                livestreamTagModels in
          let livestream :=
            {| l_ID := ls_ID livestreamModel; l_Owner := owner;
               l_Title := ls_Title livestreamModel;
               l_Description := ls_Description livestreamModel;
               l_PlaylistUrl := ls_PlaylistUrl livestreamModel;
               l_ThumbnailUrl := ls_ThumbnailUrl livestreamModel;
               l_Tags := tags;
               l_StartAt := ls_StartAt livestreamModel;
               l_EndAt := ls_EndAt livestreamModel |} in
          let '(livestreams, gErr) :=
            fillLoop ownersMap livestreamTagsMap tagsMap rest in
          (livestream :: livestreams, gErr)
      end
  end.

(** [fillLivestreamResponseBulk]; [None] is its error return. *)
Definition fillLivestreamResponseBulk (env : BulkEnv) (s : State)
    (livestreamModels : list LivestreamModel) : option (list Livestream) :=
  if (length livestreamModels =? 0)%nat then Some []
  else
    match mapM (fun m => Cache.Get (userModelByIdCache (caches s)) (ls_UserID m))
               livestreamModels with
    | None => None
    | Some ownerModels =>
        let livestreamIDs := map ls_ID livestreamModels in
        match fillUserResponseBulk env ownerModels with
        | None => None
        | Some owners =>
            let ownersMap := ownersMapOf owners in
            if bulkTagsErr env then None
            else
              let allLivestreamTagModels :=
                SelectLivestreamTagsIn (db s) livestreamIDs in
              let livestreamTagsMap :=
                livestreamTagsMapOf allLivestreamTagModels in
              let '(allTagModels, gErr) :=
                collectTagModels (tagModelCache (caches s))
                                 allLivestreamTagModels in
              let tagsMap := tagsMapOf allTagModels in
              let '(livestreams, gErr') :=
                fillLoop ownersMap livestreamTagsMap tagsMap livestreamModels in
              if gErr || gErr' then None else Some livestreams
        end
    end.

(** ** Reading livestreams and tags *)

Inductive getMessage :=
| LivestreamNotFoundByID
| FailedToGetLivestream
| GetFailedToFillLivestream.

Inductive getResponse :=
| GetError (code : Z) (m : getMessage)
| GetJSON (code : Z) (body : Livestream).

(** [getLivestreamHandler], from the verified session and the parsed path
    parameter on.  [getErr] is an error of the query other than
    [sql.ErrNoRows]; [SELECT * FROM livestreams WHERE id = ?] read with
    [GetContext] takes the first matching row. *)
Definition getLivestreamHandler (getErr : bool) (o : Oracle) (livestreamID : Z)
    (s : State) : getResponse :=
  if getErr then GetError StatusInternalServerError FailedToGetLivestream
  else
    match List.find (fun m => ls_ID m =? livestreamID) (livestreams (db s)) with
    | None => GetError StatusNotFound LivestreamNotFoundByID
    | Some livestreamModel =>
        match fillLivestreamResponse o s livestreamModel with
        | None => GetError StatusInternalServerError GetFailedToFillLivestream
        | Some livestream => GetJSON StatusOK livestream
        end
    end.

(** [getTagHandler]: the tags of the answer, one per cached tag, in the
    order of [tagModelCache.All()]. *)
Definition getTagHandler (c : Caches) : list Tag :=
  map tagOfModel (Cache.All (tagModelCache c)).

(** Every cache that is keyed by a field of its records holds each record
    under that field's value; the by-owner cache holds, under a user id,
    livestreams of that user. *)
Definition keyedByOwnField (c : Caches) : Prop :=
  (forall k v, tagModelCache c !! k = Some v -> tagm_ID v = k)
  /\ (forall k v, userModelByIdCache c !! k = Some v -> um_ID v = k)
  /\ (forall k v, userModelByNameCache c !! k = Some v -> um_Name v = k)
  /\ (forall k v, livestreamModelByIdCache c !! k = Some v -> ls_ID v = k)
  /\ (forall k l, livestreamModelByUserIDCache c !! k = Some l ->
                  Forall (fun v => ls_UserID v = k) l).

(** ** Fixtures for the comment handlers *)

Module Scenario.

(** The state after [alice] (user 1) has reserved the first slot: the
    livestream with id 1 is stored and cached. *)
Definition reserved : State :=
  final (reserveLivestreamHandler Fixture.noErrors 1
           (Fixture.request [7] Fixture.T0 (Fixture.T0 + Fixture.hour))
           (Fixture.initial 1)).

Definition noCommentErrors : CommentEnv :=
  {| ngwordsErr := false; insertLivecommentErr := false;
     livecommentLastInsertIdErr := false; commentNow := Fixture.T0;
     authorFill := Fixture.noErrors; ownerFill := Fixture.noErrors |}.

Definition noModerateErrors : ModerateEnv :=
  {| modBeginErr := false; modInsertErr := false;
     modLastInsertIdErr := false; modSelectErr := false;
     modDeleteErr := false; modCommitErr := false; modNow := Fixture.T0 |}.

Definition word (id userID livestreamID : Z) (w : string) : NGWord :=
  {| ng_ID := id; ng_UserID := userID; ng_LivestreamID := livestreamID;
     ng_Word := w; ng_CreatedAt := Fixture.T0 |}.

Definition comment (id userID livestreamID : Z) (text : string)
  : LivecommentModel :=
  {| lc_ID := id; lc_UserID := userID; lc_LivestreamID := livestreamID;
     lc_Comment := text; lc_Tip := 0; lc_CreatedAt := Fixture.T0 |}.

(** One NG word of the owner for livestream 1, and one comment on each of
    the livestreams 1 and 2. *)
Definition comments : CommentDB :=
  {| ng_words := [word 1 1 1 "bad"];
     ng_words_auto_increment := 2;
     livecomments := [comment 1 1 1 "hello"; comment 2 1 2 "so ugly"];
     livecomments_auto_increment := 3 |}.

Definition noComments : CommentDB :=
  {| ng_words := []; ng_words_auto_increment := 1;
     livecomments := []; livecomments_auto_increment := 1 |}.

Definition say (text : string) : PostLivecommentRequest :=
  {| plr_Comment := text; plr_Tip := 0 |}.

End Scenario.

(** * Properties *)

(** ** The dates of the term *)

Lemma termStartAt_unix : Time.toUnix termStartAt = 1700874000.
Proof. reflexivity. Qed.

Lemma termEndAt_unix : Time.toUnix termEndAt = 1732496400.
Proof. reflexivity. Qed.

(** Away from the ends of the [int64] range [time.Unix] does not wrap, and
    the time range check compares the request with the term as integers. *)
Lemma badTimeRange_unfold (req : ReserveLivestreamRequest) :
  min_int64 <= req_StartAt req <= max_int64 - Time.unixToInternal ->
  min_int64 <= req_EndAt req <= max_int64 - Time.unixToInternal ->
  badTimeRange req =
    (1732496400 <=? req_StartAt req) || (req_EndAt req <=? 1700874000).
Proof.
  intros Hs He. unfold badTimeRange, Time.Equal, Time.After, Time.Before.
  assert (Hw : forall x, min_int64 <= x <= max_int64 - Time.unixToInternal ->
                 Time.Unix x = x + Time.unixToInternal).
  { intros x Hx. unfold Time.Unix, wrap64.
    unfold min_int64, max_int64 in Hx.
    assert (Hu : Time.unixToInternal = 62135596800) by reflexivity.
    rewrite Z.mod_small by lia. lia. }
  rewrite (Hw _ Hs), (Hw _ He).
  assert (HS : termStartAt = 1700874000 + Time.unixToInternal) by reflexivity.
  assert (HE : termEndAt = 1732496400 + Time.unixToInternal) by reflexivity.
  rewrite HS, HE.
  destruct (Z.leb_spec 1732496400 (req_StartAt req));
    destruct (Z.leb_spec (req_EndAt req) 1700874000);
    destruct (Z.eqb_spec (req_StartAt req + Time.unixToInternal)
                (1732496400 + Time.unixToInternal));
    destruct (Z.ltb_spec (1732496400 + Time.unixToInternal)
                (req_StartAt req + Time.unixToInternal));
    destruct (Z.eqb_spec (req_EndAt req + Time.unixToInternal)
                (1700874000 + Time.unixToInternal));
    destruct (Z.ltb_spec (req_EndAt req + Time.unixToInternal)
                (1700874000 + Time.unixToInternal));
    simpl; try reflexivity; lia.
Qed.

(** ** The statements *)

Lemma in_range_same_bounds (startAt endAt : Z) (r sl : ReservationSlotModel) :
  slot_StartAt r = slot_StartAt sl -> slot_EndAt r = slot_EndAt sl ->
  in_range startAt endAt r = in_range startAt endAt sl.
Proof. intros Hs He. unfold in_range. by rewrite Hs, He. Qed.

(** On the rows of the table, the disjunction built from the selected slots
    says: the row is in the requested range and has capacity left. *)
Lemma conditions_select_available (d : DB) (startAt endAt : Z)
    (r : ReservationSlotModel) :
  In r (reservation_slots d) ->
  existsb (condition_holds r)
    (map (fun sl => (slot_StartAt sl, slot_EndAt sl))
         (SelectSlotsForUpdate d startAt endAt))
  = in_range startAt endAt r && (0 <? slot_Slot r).
Proof.
  intros Hin. unfold SelectSlotsForUpdate.
  destruct (in_range startAt endAt r && (0 <? slot_Slot r)) eqn:E.
  - apply andb_prop in E as [Hr Hc]. apply existsb_exists.
    exists (slot_StartAt r, slot_EndAt r). split.
    + apply in_map_iff. exists r. split; [done |]. by apply filter_In.
    + unfold condition_holds. simpl. by rewrite !Z.eqb_refl, Hc.
  - apply not_true_is_false. intros Hex.
    apply existsb_exists in Hex as [c [Hc Hh]].
    apply in_map_iff in Hc as [sl [<- Hsl]]. apply filter_In in Hsl as [_ Hsl].
    unfold condition_holds in Hh. simpl in Hh.
    apply andb_prop in Hh as [Hh Hpos]. apply andb_prop in Hh as [H1 H2].
    apply Z.eqb_eq in H1, H2.
    rewrite (in_range_same_bounds _ _ _ _ H1 H2), Hsl, Hpos in E. discriminate.
Qed.

(** The count statement of the handler computes the availability count of
    the specification whenever it has at least one disjunct. *)
Lemma SelectCount_CountAvailable (d : DB) (startAt endAt : Z) :
  SelectSlotsForUpdate d startAt endAt <> [] ->
  SelectCount d
    (map (fun sl => (slot_StartAt sl, slot_EndAt sl))
         (SelectSlotsForUpdate d startAt endAt))
  = Some (CountAvailable d startAt endAt).
Proof.
  intros Hne. unfold SelectCount, CountAvailable.
  destruct (SelectSlotsForUpdate d startAt endAt) as [| sl0 rest] eqn:E;
    [done |].
  rewrite <- E. simpl map at 1.
  destruct (map _ (SelectSlotsForUpdate d startAt endAt)) eqn:Em.
  { rewrite E in Em. discriminate. }
  rewrite <- Em. do 3 f_equal.
  apply filter_ext_in. intros r Hr. by apply conditions_select_available.
Qed.

(** When the count statement returns, some slot was selected and the result
    is the availability count. *)
Lemma SelectCount_Some (d : DB) (startAt endAt count : Z) :
  SelectCount d
    (map (fun sl => (slot_StartAt sl, slot_EndAt sl))
         (SelectSlotsForUpdate d startAt endAt))
  = Some count ->
  SelectSlotsForUpdate d startAt endAt <> []
  /\ count = CountAvailable d startAt endAt.
Proof.
  intros Hq.
  assert (Hne : SelectSlotsForUpdate d startAt endAt <> []).
  { intros E. rewrite E in Hq. discriminate. }
  split; [done |]. rewrite SelectCount_CountAvailable in Hq by done.
  congruence.
Qed.

(** ** The handler, branch by branch *)

Lemma resp_emit (e : event) (o : outcome) : resp (emit e o) = resp o.
Proof. by destruct o. Qed.

Lemma final_emit (e : event) (o : outcome) : final (emit e o) = final o.
Proof. by destruct o. Qed.

Lemma trace_emit (e : event) (o : outcome) :
  trace (emit e o) = e :: trace o.
Proof. by destruct o. Qed.

Lemma resp_defer (e : event) (o : outcome) : resp (defer e o) = resp o.
Proof. by destruct o. Qed.

Lemma final_defer (e : event) (o : outcome) : final (defer e o) = final o.
Proof. by destruct o. Qed.

Lemma trace_defer (e : event) (o : outcome) :
  trace (defer e o) = trace o ++ [e].
Proof. by destruct o. Qed.

Ltac unfold_handler :=
  unfold reserveLivestreamHandler, reserveInTx, InsertLivestream,
         emit, defer, ret in *; simpl in *.

(** Case analysis on one test of the handler. *)
Ltac branch :=
  match goal with
  | H : context [if ?b then _ else _] |- _ => destruct b eqn:?
  | H : context [match ?x with Some _ => _ | None => _ end] |- _ =>
      destruct x eqn:?
  | |- context [if ?b then _ else _] => destruct b eqn:?
  | |- context [match ?x with Some _ => _ | None => _ end] =>
      destruct x eqn:?
  end; simpl in *; try discriminate.

(** After the transaction has begun the answer is a storage failure or the
    created livestream. *)
Lemma reserveInTx_resp (o : Oracle) (userID : Z)
    (req : ReserveLivestreamRequest) (s : State) :
  isStorageFailure (resp (reserveInTx o userID req s)) = true
  \/ isCreated (resp (reserveInTx o userID req s)) = true.
Proof. unfold_handler. repeat branch; auto. Qed.

Lemma not_overbooked (r : response) :
  isStorageFailure r = true \/ isCreated r = true -> isOverbooked r = false.
Proof.
  intros [Hr | Hr]; destruct r as [code m | code body]; try done.
  destruct (decide (code = 500)) as [-> | Hne]; [done |].
  exfalso. revert Hr. unfold isStorageFailure.
  destruct code as [| p | p]; try done.
  repeat (destruct p as [p | p |]; try done).
Qed.

Lemma tags_empty (livestreamID : Z) (tags : list Z) :
  (0 <? Z.of_nat (length (newLivestreamTagModels livestreamID tags))) = false ->
  newLivestreamTagModels livestreamID tags = [].
Proof.
  intros H. apply Z.ltb_ge in H.
  destruct (newLivestreamTagModels livestreamID tags); [done | simpl in H; lia].
Qed.

(** What a [201 Created] answer implies about the run. *)
Lemma created_run (o : Oracle) (userID : Z) (req : ReserveLivestreamRequest)
    (s : State) :
  let r := reserveLivestreamHandler o userID req s in
  let livestreamID := livestreams_auto_increment (db s) in
  let livestreamModel := withID (newLivestreamModel userID req) livestreamID in
  let rows := newLivestreamTagModels livestreamID (req_Tags req) in
  isCreated (resp r) = true ->
  badTimeRange req = false
  /\ 1 <= CountAvailable (db s) (req_StartAt req) (req_EndAt req)
  /\ db (final r) =
       (if 0 <? Z.of_nat (length rows)
        then InsertLivestreamTags
               (InsertLivestream
                  (UpdateSlots (db s) (req_StartAt req) (req_EndAt req))
                  (newLivestreamModel userID req)).1 rows
        else (InsertLivestream
                (UpdateSlots (db s) (req_StartAt req) (req_EndAt req))
                (newLivestreamModel userID req)).1)
  /\ caches (final r) = cacheLivestream (caches s) livestreamModel
  /\ trace r =
       [EvSelectSlotsForUpdate DbConn; EvSelectCount DbConn; EvBeginTxx;
        EvUpdateSlots Tx; EvInsertLivestream Tx;
        EvCacheSetById livestreamID; EvCacheSetByUserID userID]
       ++ (if 0 <? Z.of_nat (length rows) then [EvInsertLivestreamTags Tx]
           else [])
       ++ [EvCommit; EvFillLivestreamResponse; EvRollback].
Proof.
  intros r livestreamID livestreamModel rows Hc.
  subst r livestreamID livestreamModel rows.
  unfold_handler.
  destruct (badTimeRange req) eqn:Hb; simpl in *; [discriminate |].
  destruct (selectSlotsErr o) eqn:Hs; simpl in *; [discriminate |].
  destruct (countErr o) eqn:Hce; simpl in *; [discriminate |].
  destruct (SelectCount _ _) as [count |] eqn:Hq; simpl in *; [| discriminate].
  apply SelectCount_Some in Hq as [_ ->].
  destruct (_ <? 1) eqn:Hlt; simpl in *; [discriminate |].
  apply Z.ltb_ge in Hlt.
  repeat branch; repeat split; try done.
Qed.

Lemma number_tags_assoc (next livestreamID : Z) (tags : list Z) :
  map (fun r => (lt_LivestreamID r, lt_TagID r))
      (number_tags next (newLivestreamTagModels livestreamID tags))
  = map (fun t => (livestreamID, t)) tags.
Proof.
  revert next. induction tags as [| t tags IH]; intros next; [done |].
  simpl. f_equal. apply IH.
Qed.

Lemma UpdateSlots_rows (d : DB) (startAt endAt : Z) :
  Forall2
    (fun old new =>
       slot_ID new = slot_ID old
       /\ slot_StartAt new = slot_StartAt old
       /\ slot_EndAt new = slot_EndAt old
       /\ slot_Slot new =
            if in_range startAt endAt old then slot_Slot old - 1
            else slot_Slot old)
    (reservation_slots d)
    (reservation_slots (UpdateSlots d startAt endAt)).
Proof.
  unfold UpdateSlots. simpl.
  induction (reservation_slots d) as [| sl l IH]; simpl; constructor; [| done].
  by destruct (in_range startAt endAt sl).
Qed.

(** ** Cache population *)

Section BulkLoad.
Context {K : Type} `{Countable K} {V : Type}.
Variable key : V -> K.

Lemma BulkLoad_cons (r : V) (records : list V) (c : gmap K V) :
  BulkLoad key (r :: records) c
  = BulkLoad key records (Cache.Set_ c (key r) r).
Proof. reflexivity. Qed.

(** A key carried by no record keeps its entry. *)
Lemma BulkLoad_lookup_other (records : list V) (c : gmap K V) (k : K) :
  Forall (fun r => key r <> k) records ->
  BulkLoad key records c !! k = c !! k.
Proof.
  revert c. induction records as [| r records IH]; intros c Hall; [done |].
  apply Forall_cons in Hall as [Hr Hall].
  rewrite BulkLoad_cons, IH by done.
  unfold Cache.Set_. by rewrite lookup_insert_ne.
Qed.

(** The entry of a key carried by some record does not depend on the
    cache the load started from. *)
Lemma BulkLoad_lookup_indep (records : list V) (c c' : gmap K V) (k : K) :
  c !! k = c' !! k \/ Exists (fun r => key r = k) records ->
  BulkLoad key records c !! k = BulkLoad key records c' !! k.
Proof.
  revert c c'. induction records as [| r records IH]; intros c c' Hk.
  - destruct Hk as [Hk | Hk]; [done | by apply Exists_nil in Hk].
  - rewrite !BulkLoad_cons. apply IH. unfold Cache.Set_.
    destruct (decide (key r = k)) as [-> | Hne].
    + left. by rewrite !lookup_insert_eq.
    + destruct Hk as [Hk | Hk].
      * left. by rewrite !lookup_insert_ne.
      * apply Exists_cons in Hk as [Hk | Hk]; [done | by right].
Qed.

Lemma BulkLoad_idempotent (records : list V) (c : gmap K V) :
  BulkLoad key records (BulkLoad key records c) = BulkLoad key records c.
Proof.
  apply map_eq. intros k.
  destruct (decide (Exists (fun r => key r = k) records)) as [Hex | Hno].
  - apply BulkLoad_lookup_indep. by right.
  - apply BulkLoad_lookup_other. apply Forall_forall. intros r Hr Hk.
    apply Hno. apply Exists_exists. eauto.
Qed.

(** [Get] after [Set] returns the value written. *)
Lemma Get_Set_eq (c : gmap K V) (k : K) (v : V) :
  Cache.Get (Cache.Set_ c k v) k = Some v.
Proof. apply lookup_insert_eq. Qed.
End BulkLoad.

(** Whenever a transaction is begun, the locking select and the count have
    already been issued on [dbConn], and neither is issued again. *)
Lemma reads_precede_transaction (o : Oracle) (userID : Z)
    (req : ReserveLivestreamRequest) (s : State) :
  let r := reserveLivestreamHandler o userID req s in
  In EvBeginTxx (trace r) ->
  exists rest,
    trace r = [EvSelectSlotsForUpdate DbConn; EvSelectCount DbConn; EvBeginTxx]
              ++ rest
    /\ Forall (fun e => forall h, e <> EvSelectSlotsForUpdate h
                                  /\ e <> EvSelectCount h) rest.
Proof.
  intros r Hin. subst r. revert Hin. unfold reserveLivestreamHandler.
  destruct (badTimeRange req); [by intros [] |].
  rewrite !trace_emit.
  destruct (selectSlotsErr o); [simpl; intuition discriminate |].
  rewrite !trace_emit.
  destruct (if countErr o then None else SelectCount _ _) as [count |];
    [| simpl; intuition discriminate].
  destruct (count <? 1); [simpl; intuition discriminate |].
  rewrite !trace_emit. intros _. eexists. split; [reflexivity |].
  destruct (beginErr o); [by apply List.Forall_nil |].
  rewrite trace_defer. apply Forall_app. split.
  - unfold_handler.
    repeat branch;
      repeat (apply List.Forall_cons; [by intros [] |]); apply List.Forall_nil.
  - apply List.Forall_cons; [by intros [] | apply List.Forall_nil].
Qed.

(** A failure answered before the cache writes leaves the whole state as it
    was. *)
Lemma early_failure_keeps_state (o : Oracle) (userID : Z)
    (req : ReserveLivestreamRequest) (s : State) :
  let r := reserveLivestreamHandler o userID req s in
  (forall id, ~ In (EvCacheSetById id) (trace r)) ->
  final r = s.
Proof.
  intros r Hno. subst r. revert Hno. unfold_handler.
  repeat branch; try done.
  all: intros Hno; exfalso; eapply Hno; simpl; eauto 10.
Qed.

(** * The claims *)

Import Fixture.

(** C1 (evaluated at a failing input).  Remaining capacity is meant never to
    go negative.  From a calendar of two slots of capacity 1, a reservation
    of the first slot followed by a reservation of both slots is accepted
    twice, and leaves the first slot at -1: two accepted reservations count
    against a slot of capacity 1. *)
Theorem second_reservation_overbooks_first_slot :
  let first := request [] T0 (T0 + hour) in
  let second := request [] T0 (T0 + 2 * hour) in
  let r1 := reserveLivestreamHandler noErrors 1 first (initial 1) in
  let r2 := reserveLivestreamHandler noErrors 1 second (final r1) in
  isCreated (resp r1) = true
  /\ map slot_Slot (reservation_slots (db (final r1))) = [0; 1]
  /\ CountAvailable (db (final r1)) T0 (T0 + 2 * hour) = 1
  /\ isCreated (resp r2) = true
  /\ map slot_Slot (reservation_slots (db (final r2))) = [-1; 0]
  /\ final r2 = reserveAll [(noErrors, 1, first); (noErrors, 1, second)]
                  (initial 1).
Proof. vm_compute. repeat split; reflexivity. Qed.

(** C2 (evaluated at a failing input).  The slot lock and the availability
    count are meant to run inside the transaction of the reservation.  In an
    accepted run the locking select and the count are issued on [dbConn]
    before [BeginTxx]; only the update and the inserts run on [tx]. *)
Theorem lock_and_count_precede_transaction :
  trace (reserveLivestreamHandler noErrors 1 (request [7] T0 (T0 + hour))
           (initial 1))
  = [EvSelectSlotsForUpdate DbConn; EvSelectCount DbConn; EvBeginTxx;
     EvUpdateSlots Tx; EvInsertLivestream Tx; EvCacheSetById 1;
     EvCacheSetByUserID 1; EvInsertLivestreamTags Tx; EvCommit;
     EvFillLivestreamResponse; EvRollback].
Proof. reflexivity. Qed.

(** C3 (evaluated at a failing input).  A failed reservation is meant to
    leave the caches untouched.  When [Commit] fails the handler answers
    500 and the store is unchanged, but both livestream caches already hold
    the livestream that was never committed. *)
Theorem failed_commit_leaves_cache_entries :
  let s := initial 1 in
  let r := reserveLivestreamHandler commitFails 1 (request [7] T0 (T0 + hour)) s in
  resp r = HTTPError StatusInternalServerError FailedToCommit
  /\ db (final r) = db s
  /\ Cache.Get (livestreamModelByIdCache (caches s)) 1 = None
  /\ Cache.Get (livestreamModelByUserIDCache (caches s)) 1 = None
  /\ Cache.Get (livestreamModelByIdCache (caches (final r))) 1
     = Some (withID (newLivestreamModel 1 (request [7] T0 (T0 + hour))) 1)
  /\ Cache.Get (livestreamModelByUserIDCache (caches (final r))) 1
     = Some [withID (newLivestreamModel 1 (request [7] T0 (T0 + hour))) 1].
Proof. vm_compute. repeat split; reflexivity. Qed.

(** C4.  For a request that passed the time range check and whose slot
    query returned at least one row, with the count statement returning:
    the handler answers [Overbooked] exactly when the availability count is
    below one, and then the state is the one it started from and nothing
    but the two reads was issued. *)
Theorem overbooked_iff_no_available_slot (o : Oracle) (userID : Z)
    (req : ReserveLivestreamRequest) (s : State) :
  badTimeRange req = false ->
  selectSlotsErr o = false ->
  countErr o = false ->
  SelectSlotsForUpdate (db s) (req_StartAt req) (req_EndAt req) <> [] ->
  let r := reserveLivestreamHandler o userID req s in
  (isOverbooked (resp r) = true
   <-> CountAvailable (db s) (req_StartAt req) (req_EndAt req) < 1)
  /\ (isOverbooked (resp r) = true ->
      final r = s
      /\ trace r = [EvSelectSlotsForUpdate DbConn; EvSelectCount DbConn]).
Proof.
  intros Hb Hs Hc Hne r. subst r.
  pose proof (reserveInTx_resp o userID req s) as Htx.
  unfold reserveLivestreamHandler. rewrite Hb, Hs, Hc.
  rewrite SelectCount_CountAvailable by done.
  destruct (Z.ltb_spec (CountAvailable (db s) (req_StartAt req) (req_EndAt req)) 1)
    as [Hlt | Hge]; simpl.
  - split; [split; done | done].
  - assert (Hno : isOverbooked
                    (resp (if beginErr o
                           then ret (HTTPError StatusInternalServerError
                                       FailedToBeginTransaction) s
                           else defer EvRollback (reserveInTx o userID req s)))
                  = false).
    { destruct (beginErr o); [done |]. rewrite resp_defer.
      by apply not_overbooked. }
    rewrite !resp_emit, Hno. split; [split; [done | lia] | done].
Qed.

(** The theorem of C4 at a calendar without capacity. *)
Lemma overbooked_iff_no_available_slot_witness :
  isOverbooked
    (resp (reserveLivestreamHandler noErrors 1 (request [] T0 (T0 + hour))
             (initial 0))) = true.
Proof.
  apply (proj2 (proj1 (overbooked_iff_no_available_slot noErrors 1
                         (request [] T0 (T0 + hour)) (initial 0)
                         eq_refl eq_refl eq_refl
                         ltac:(vm_compute; discriminate)))).
  vm_compute. reflexivity.
Defined.

(** C5 (evaluated at a failing input).  A request not inside the term is
    meant to be answered [OutOfRange] before the store is touched.  A
    request that starts one hour before the term and ends one hour into it
    passes the check, reaches the store and is accepted. *)
Theorem request_across_term_start_is_accepted :
  let req := request [] (T0 - hour) (T0 + hour) in
  let r := reserveLivestreamHandler noErrors 1 req (initial 1) in
  req_StartAt req < Time.toUnix termStartAt
  /\ badTimeRange req = false
  /\ isOutOfRange (resp r) = false
  /\ isCreated (resp r) = true
  /\ trace r <> [].
Proof. vm_compute. repeat split; try reflexivity; discriminate. Qed.

(** The scenario of C5 that the handler does reject: a request starting at
    the end of the term is answered [OutOfRange] with no call logged. *)
Lemma start_at_term_end_is_out_of_range (o : Oracle) (userID : Z)
    (req : ReserveLivestreamRequest) (s : State) :
  req_StartAt req = Time.toUnix termEndAt ->
  let r := reserveLivestreamHandler o userID req s in
  isOutOfRange (resp r) = true /\ final r = s /\ trace r = [].
Proof.
  intros Hs r. subst r. unfold reserveLivestreamHandler.
  assert (Hb : badTimeRange req = true).
  { unfold badTimeRange. rewrite Hs. reflexivity. }
  by rewrite Hb.
Qed.

(** C6.  When the handler answers [201 Created]: the slot table has the
    same rows, those in the requested range with one unit of capacity less
    and the others as they were; the livestream table has exactly one more
    row, with the generated id, the caller as owner and the fields of the
    request; the tag table has one more row per requested tag, all for the
    new livestream; and the update and the inserts were issued on the
    transaction between [BeginTxx] and [Commit]. *)
Theorem accepted_reservation_effect (o : Oracle) (userID : Z)
    (req : ReserveLivestreamRequest) (s : State) :
  let r := reserveLivestreamHandler o userID req s in
  let livestreamID := livestreams_auto_increment (db s) in
  isCreated (resp r) = true ->
  Forall2
    (fun old new =>
       slot_ID new = slot_ID old
       /\ slot_StartAt new = slot_StartAt old
       /\ slot_EndAt new = slot_EndAt old
       /\ slot_Slot new =
            if in_range (req_StartAt req) (req_EndAt req) old
            then slot_Slot old - 1 else slot_Slot old)
    (reservation_slots (db s)) (reservation_slots (db (final r)))
  /\ livestreams (db (final r)) =
       livestreams (db s)
       ++ [{| ls_ID := livestreamID; ls_UserID := userID;
              ls_Title := req_Title req;
              ls_Description := req_Description req;
              ls_PlaylistUrl := req_PlaylistUrl req;
              ls_ThumbnailUrl := req_ThumbnailUrl req;
              ls_StartAt := req_StartAt req; ls_EndAt := req_EndAt req |}]
  /\ (exists added,
        livestream_tags (db (final r)) = livestream_tags (db s) ++ added
        /\ map (fun row => (lt_LivestreamID row, lt_TagID row)) added
           = map (fun t => (livestreamID, t)) (req_Tags req))
  /\ (exists cacheAndTags,
        trace r =
          [EvSelectSlotsForUpdate DbConn; EvSelectCount DbConn; EvBeginTxx;
           EvUpdateSlots Tx; EvInsertLivestream Tx]
          ++ cacheAndTags ++ [EvCommit; EvFillLivestreamResponse; EvRollback]
        /\ Forall (fun e => e = EvCacheSetById livestreamID
                            \/ e = EvCacheSetByUserID userID
                            \/ e = EvInsertLivestreamTags Tx) cacheAndTags).
Proof.
  intros r livestreamID Hc.
  destruct (created_run o userID req s Hc) as (_ & _ & Hdb & _ & Htr).
  fold r in Hdb, Htr. fold livestreamID in Hdb, Htr.
  rewrite Hdb, Htr. clear Hdb Htr.
  pose proof (UpdateSlots_rows (db s) (req_StartAt req) (req_EndAt req)) as Hrows.
  destruct (0 <? Z.of_nat (length (newLivestreamTagModels livestreamID (req_Tags req))))
    eqn:Hlen; simpl.
  - split; [done | split; [done | split]].
    + eexists. split; [reflexivity |]. apply number_tags_assoc.
    + exists [EvCacheSetById livestreamID; EvCacheSetByUserID userID;
              EvInsertLivestreamTags Tx].
      split; [done |].
      repeat (apply List.Forall_cons; [auto |]). apply List.Forall_nil.
  - split; [done | split; [done | split]].
    + exists []. split; [by rewrite app_nil_r |].
      apply tags_empty in Hlen. destruct (req_Tags req); [done | discriminate].
    + exists [EvCacheSetById livestreamID; EvCacheSetByUserID userID].
      split; [done |].
      repeat (apply List.Forall_cons; [auto |]). apply List.Forall_nil.
Qed.

(** The theorem of C6 at an accepted reservation of the first slot. *)
Lemma accepted_reservation_effect_witness :
  let req := request [7] T0 (T0 + hour) in
  let r := reserveLivestreamHandler noErrors 1 req (initial 1) in
  isCreated (resp r) = true
  /\ livestreams (db (final r)) =
       livestreams (db (initial 1))
       ++ [{| ls_ID := 1; ls_UserID := 1; ls_Title := req_Title req;
              ls_Description := req_Description req;
              ls_PlaylistUrl := req_PlaylistUrl req;
              ls_ThumbnailUrl := req_ThumbnailUrl req;
              ls_StartAt := T0; ls_EndAt := T0 + hour |}].
Proof.
  split; [reflexivity |].
  exact (proj1 (proj2 (accepted_reservation_effect noErrors 1
                         (request [7] T0 (T0 + hour)) (initial 1) eq_refl))).
Defined.

(** C7 (evaluated at a failing input).  A created livestream is meant to lie
    inside the term over slots that all had capacity.  After the first slot
    has been used up, a request from one hour before the term to two hours
    into it is accepted: its interval starts before the term, and the first
    slot it covers had no capacity left when it was accepted. *)
Theorem livestream_created_outside_term_over_full_slot :
  let s := final (reserveLivestreamHandler noErrors 1
                    (request [] T0 (T0 + hour)) (initial 1)) in
  let req := request [] (T0 - hour) (T0 + 2 * hour) in
  let r := reserveLivestreamHandler noErrors 1 req s in
  isCreated (resp r) = true
  /\ map (fun l => (ls_StartAt l, ls_EndAt l)) (livestreams (db (final r)))
     = [(T0, T0 + hour); (T0 - hour, T0 + 2 * hour)]
  /\ T0 - hour < Time.toUnix termStartAt
  /\ map slot_Slot (SelectSlotsForUpdate (db s) (req_StartAt req) (req_EndAt req))
     = [0; 1]
  /\ map slot_Slot (reservation_slots (db (final r))) = [-1; 0].
Proof. vm_compute. repeat split; reflexivity. Qed.

(** The part of C7 that the handler enforces: with slots of positive
    length, a created livestream starts before it ends. *)
Lemma created_livestream_start_before_end (o : Oracle) (userID : Z)
    (req : ReserveLivestreamRequest) (s : State) :
  Forall (fun sl => slot_StartAt sl < slot_EndAt sl) (reservation_slots (db s)) ->
  isCreated (resp (reserveLivestreamHandler o userID req s)) = true ->
  req_StartAt req < req_EndAt req.
Proof.
  intros Hwf Hc.
  destruct (created_run o userID req s Hc) as (_ & Hcount & _).
  unfold CountAvailable in Hcount.
  destruct (List.filter _ (reservation_slots (db s))) as [| sl l] eqn:E;
    [simpl in Hcount; lia |].
  assert (Hin : In sl (List.filter
                         (fun r => in_range (req_StartAt req) (req_EndAt req) r
                                   && (0 <? slot_Slot r))
                         (reservation_slots (db s)))).
  { rewrite E. by left. }
  apply filter_In in Hin as [Hin Hr].
  apply andb_prop in Hr as [Hr _]. unfold in_range in Hr.
  apply andb_prop in Hr as [H1 H2]. apply Z.leb_le in H1, H2.
  rewrite Forall_forall in Hwf. apply list_elem_of_In in Hin.
  specialize (Hwf sl Hin). simpl in Hwf. lia.
Qed.

(** C8.  After a [201 Created] answer, [Get] on the by-id cache with the new
    id returns the record that was inserted, and the by-owner cache entry of
    the caller is its previous list (empty when there was none) with that
    record appended.  [Cache.Get] reads the cache alone. *)
Theorem created_livestream_is_cached (o : Oracle) (userID : Z)
    (req : ReserveLivestreamRequest) (s : State) :
  let r := reserveLivestreamHandler o userID req s in
  let livestreamID := livestreams_auto_increment (db s) in
  let livestreamModel := withID (newLivestreamModel userID req) livestreamID in
  isCreated (resp r) = true ->
  (exists body, resp r = JSON StatusCreated body /\ l_ID body = livestreamID)
  /\ In livestreamModel (livestreams (db (final r)))
  /\ Cache.Get (livestreamModelByIdCache (caches (final r))) livestreamID
     = Some livestreamModel
  /\ Cache.Get (livestreamModelByUserIDCache (caches (final r))) userID
     = Some (default [] (Cache.Get (livestreamModelByUserIDCache (caches s)) userID)
             ++ [livestreamModel])
  /\ In livestreamModel
       (default [] (Cache.Get (livestreamModelByUserIDCache (caches (final r)))
                      userID)).
Proof.
  intros r livestreamID livestreamModel Hc.
  destruct (created_run o userID req s Hc) as (_ & _ & Hdb & Hca & _).
  fold r in Hdb, Hca. fold livestreamID in Hdb, Hca.
  fold livestreamModel in Hca.
  assert (Hget : Cache.Get (livestreamModelByUserIDCache (caches (final r))) userID
                 = Some (default [] (Cache.Get (livestreamModelByUserIDCache (caches s)) userID)
                         ++ [livestreamModel])).
  { rewrite Hca. unfold cacheLivestream. simpl. rewrite Get_Set_eq.
    by destruct (Cache.Get (livestreamModelByUserIDCache (caches s)) userID). }
  split; [| split; [| split; [| split]]].
  - subst r. clear Hdb Hca Hget. unfold_handler.
    repeat branch.
    all: match goal with
         | H : fillLivestreamResponse _ _ _ = Some _ |- _ =>
             unfold fillLivestreamResponse in H; simpl in H;
             repeat (branch; simplify_eq)
         end.
    all: eexists; split; [reflexivity | reflexivity].
  - rewrite Hdb.
    destruct (0 <? _); simpl; apply in_or_app; right; by left.
  - rewrite Hca. unfold cacheLivestream. simpl. apply Get_Set_eq.
  - exact Hget.
  - rewrite Hget. simpl. apply in_or_app. right. by left.
Qed.

(** The theorem of C8 at an accepted reservation of the first slot. *)
Lemma created_livestream_is_cached_witness :
  let req := request [7] T0 (T0 + hour) in
  let r := reserveLivestreamHandler noErrors 1 req (initial 1) in
  isCreated (resp r) = true
  /\ Cache.Get (livestreamModelByIdCache (caches (final r))) 1
     = Some (withID (newLivestreamModel 1 req) 1).
Proof.
  split; [reflexivity |].
  exact (proj1 (proj2 (proj2 (created_livestream_is_cached noErrors 1
                                (request [7] T0 (T0 + hour)) (initial 1)
                                eq_refl)))).
Defined.

(** C9.  Loading the same records into a cache a second time leaves the
    values that [All] returns the same up to order (the cache itself is
    unchanged, since [Set] overwrites). *)
Theorem BulkLoad_twice_same_values {K : Type} `{Countable K} {V : Type}
    (key : V -> K) (records : list V) (c : gmap K V) :
  Cache.All (BulkLoad key records (BulkLoad key records c))
  ≡ₚ Cache.All (BulkLoad key records c).
Proof. by rewrite BulkLoad_idempotent. Qed.

(** C10.  A request that passed the time range check and whose range holds
    no slot row is answered with the 500 of the slot queries, not with
    [Overbooked], and the state is the one it started from.  When the slot
    query itself returned, the failing statement is the count, built from an
    empty list of conditions. *)
Theorem empty_range_is_storage_failure (o : Oracle) (userID : Z)
    (req : ReserveLivestreamRequest) (s : State) :
  badTimeRange req = false ->
  SelectSlotsForUpdate (db s) (req_StartAt req) (req_EndAt req) = [] ->
  let r := reserveLivestreamHandler o userID req s in
  resp r = HTTPError StatusInternalServerError FailedToGetReservationSlots
  /\ isStorageFailure (resp r) = true
  /\ isOverbooked (resp r) = false
  /\ final r = s
  /\ (selectSlotsErr o = false ->
      SelectCount (db s)
        (map (fun sl => (slot_StartAt sl, slot_EndAt sl))
           (SelectSlotsForUpdate (db s) (req_StartAt req) (req_EndAt req)))
      = None
      /\ trace r = [EvSelectSlotsForUpdate DbConn; EvSelectCount DbConn]).
Proof.
  intros Hb He r. subst r. unfold reserveLivestreamHandler.
  rewrite Hb, He. simpl.
  destruct (selectSlotsErr o); [done |].
  destruct (countErr o); done.
Qed.

(** The theorem of C10 at a request past the last slot of the calendar. *)
Lemma empty_range_is_storage_failure_witness :
  resp (reserveLivestreamHandler noErrors 1
          (request [] (T0 + 2 * hour) (T0 + 3 * hour)) (initial 1))
  = HTTPError StatusInternalServerError FailedToGetReservationSlots.
Proof.
  exact (proj1 (empty_range_is_storage_failure noErrors 1
                 (request [] (T0 + 2 * hour) (T0 + 3 * hour)) (initial 1)
                 eq_refl eq_refl)).
Defined.

(** * Further properties *)

Import Scenario.

(** ** The reservation handler *)

Lemma isOutOfRange_badTimeRange (o : Oracle) (userID : Z)
    (req : ReserveLivestreamRequest) (s : State) :
  isOutOfRange (resp (reserveLivestreamHandler o userID req s))
  = badTimeRange req.
Proof. unfold_handler. repeat branch; auto. Qed.

(** X1.  For timestamps that [time.Unix] represents without overflow, the
    handler answers [bad reservation time range] exactly when the request
    starts at or after the end of the term or ends at or before its start;
    every request that overlaps the term passes the check. *)
Theorem out_of_range_iff_outside_term (o : Oracle) (userID : Z)
    (req : ReserveLivestreamRequest) (s : State) :
  min_int64 <= req_StartAt req <= max_int64 - Time.unixToInternal ->
  min_int64 <= req_EndAt req <= max_int64 - Time.unixToInternal ->
  isOutOfRange (resp (reserveLivestreamHandler o userID req s)) = true
  <-> Time.toUnix termEndAt <= req_StartAt req
      \/ req_EndAt req <= Time.toUnix termStartAt.
Proof.
  intros Hs He.
  rewrite isOutOfRange_badTimeRange, badTimeRange_unfold by done.
  rewrite termStartAt_unix, termEndAt_unix, orb_true_iff.
  by rewrite !Z.leb_le.
Qed.

Lemma out_of_range_iff_outside_term_witness :
  isOutOfRange
    (resp (reserveLivestreamHandler noErrors 1
             (request [] (T0 - 2 * hour) (T0 - hour)) (initial 1))) = true.
Proof.
  apply (out_of_range_iff_outside_term noErrors 1
           (request [] (T0 - 2 * hour) (T0 - hour)) (initial 1)).
  - vm_compute. split; discriminate.
  - vm_compute. split; discriminate.
  - right. vm_compute. discriminate.
Defined.

(** X2.  A start time above [max_int64 - unixToInternal] overflows the
    [int64] addition of [time.Unix] and becomes a time before year 1: the
    start test passes, and such a request is not answered
    [bad reservation time range] when its end lies after the start of the
    term. *)
Theorem start_time_overflow_passes_range_check (o : Oracle) (userID : Z)
    (req : ReserveLivestreamRequest) (s : State) :
  max_int64 - Time.unixToInternal < req_StartAt req <= max_int64 ->
  Time.toUnix termStartAt < req_EndAt req <= max_int64 - Time.unixToInternal ->
  isOutOfRange (resp (reserveLivestreamHandler o userID req s)) = false.
Proof.
  intros Hs He. rewrite isOutOfRange_badTimeRange.
  rewrite termStartAt_unix in He.
  unfold badTimeRange, Time.Equal, Time.After, Time.Before.
  assert (Hu : Time.unixToInternal = 62135596800) by reflexivity.
  assert (HS : termStartAt = 1700874000 + Time.unixToInternal) by reflexivity.
  assert (HE : termEndAt = 1732496400 + Time.unixToInternal) by reflexivity.
  unfold max_int64 in Hs, He.
  assert (Hws : Time.Unix (req_StartAt req)
                = req_StartAt req + Time.unixToInternal - 2 ^ 64).
  { unfold Time.Unix, wrap64.
    replace (req_StartAt req + Time.unixToInternal + 2 ^ 63)
      with (req_StartAt req + Time.unixToInternal - 2 ^ 63 + 1 * 2 ^ 64) by lia.
    rewrite Z.mod_add by lia. rewrite Z.mod_small by lia. lia. }
  assert (Hwe : Time.Unix (req_EndAt req)
                = req_EndAt req + Time.unixToInternal).
  { unfold Time.Unix, wrap64. rewrite Z.mod_small by lia. lia. }
  rewrite Hws, Hwe, HS, HE.
  repeat match goal with
         | |- context [?a =? ?b] => destruct (Z.eqb_spec a b); [lia |]
         | |- context [?a <? ?b] => destruct (Z.ltb_spec a b); [lia |]
         end.
  reflexivity.
Qed.

Lemma start_time_overflow_passes_range_check_witness :
  isOutOfRange
    (resp (reserveLivestreamHandler noErrors 1
             (request [] max_int64 (T0 + hour)) (initial 1))) = false.
Proof.
  apply (start_time_overflow_passes_range_check noErrors 1
           (request [] max_int64 (T0 + hour)) (initial 1)).
  - vm_compute. split; [reflexivity | discriminate].
  - vm_compute. split; [reflexivity | discriminate].
Defined.

(** X3.  Every answer other than [201 Created] and the [500] given when
    filling the response fails leaves the store as it was: whatever the
    transaction wrote is dropped by the deferred rollback. *)
Theorem store_unchanged_unless_committed (o : Oracle) (userID : Z)
    (req : ReserveLivestreamRequest) (s : State) :
  let r := reserveLivestreamHandler o userID req s in
  isCreated (resp r) = false ->
  resp r <> HTTPError StatusInternalServerError FailedToFillLivestream ->
  db (final r) = db s.
Proof.
  intros r Hc Hf. subst r. revert Hc Hf. unfold_handler.
  repeat branch; try done.
Qed.

Lemma store_unchanged_unless_committed_witness :
  db (final (reserveLivestreamHandler commitFails 1
               (request [7] T0 (T0 + hour)) (initial 1)))
  = db (initial 1).
Proof.
  apply (store_unchanged_unless_committed commitFails 1
           (request [7] T0 (T0 + hour)) (initial 1)).
  - reflexivity.
  - vm_compute. discriminate.
Defined.

(** X4.  The answer [500 failed to fill livestream] is given after the
    commit: the transaction was committed, the new livestream row is in
    the store and the slots of the range have lost one unit each, although
    the caller is told that the request failed. *)
Theorem fill_failure_leaves_reservation_committed (o : Oracle) (userID : Z)
    (req : ReserveLivestreamRequest) (s : State) :
  let r := reserveLivestreamHandler o userID req s in
  resp r = HTTPError StatusInternalServerError FailedToFillLivestream ->
  In EvCommit (trace r)
  /\ livestreams (db (final r))
     = livestreams (db s)
       ++ [withID (newLivestreamModel userID req)
                  (livestreams_auto_increment (db s))]
  /\ reservation_slots (db (final r))
     = reservation_slots
         (UpdateSlots (db s) (req_StartAt req) (req_EndAt req)).
Proof.
  intros r Hf. subst r. revert Hf. unfold_handler.
  repeat branch; try done; intros _; (split; [simpl; tauto | done]).
Qed.

Lemma fill_failure_leaves_reservation_committed_witness :
  let o :=
    {| selectSlotsErr := false; countErr := false; beginErr := false;
       updateErr := false; insertLivestreamErr := false;
       lastInsertIdErr := false; insertTagsErr := false; commitErr := false;
       selectTagsErr := false; ownerTheme := None |} in
  let r := reserveLivestreamHandler o 1 (request [] T0 (T0 + hour)) (initial 1) in
  In EvCommit (trace r).
Proof.
  intros o r.
  apply (fill_failure_leaves_reservation_committed o 1
           (request [] T0 (T0 + hour)) (initial 1)).
  reflexivity.
Defined.

Lemma handler_slots (o : Oracle) (userID : Z) (req : ReserveLivestreamRequest)
    (s : State) :
  let r := reserveLivestreamHandler o userID req s in
  reservation_slots (db (final r)) = reservation_slots (db s)
  \/ reservation_slots (db (final r))
     = reservation_slots (UpdateSlots (db s) (req_StartAt req) (req_EndAt req)).
Proof. unfold_handler. repeat branch; auto. Qed.

Lemma Forall2_compose {A : Type} (R : A -> A -> Prop) (l1 l2 l3 : list A) :
  (forall x y z, R x y -> R y z -> R x z) ->
  Forall2 R l1 l2 -> Forall2 R l2 l3 -> Forall2 R l1 l3.
Proof.
  intros Ht H12. revert l3.
  induction H12 as [| x y l1 l2 Hxy _ IH]; intros l3 H23.
  - by inversion H23.
  - inversion H23 as [| y' z l2' l3' Hyz H23']; subst.
    constructor; [by eapply Ht | by apply IH].
Qed.

(** X5.  Over any sequence of reservation calls, whatever their outcomes,
    the slot table keeps its rows in place with their ids and boundaries,
    and no remaining capacity ever grows. *)
Theorem slots_keep_identity_and_never_grow
    (calls : list (Oracle * Z * ReserveLivestreamRequest)) (s : State) :
  Forall2
    (fun old new =>
       slot_ID new = slot_ID old
       /\ slot_StartAt new = slot_StartAt old
       /\ slot_EndAt new = slot_EndAt old
       /\ slot_Slot new <= slot_Slot old)
    (reservation_slots (db s))
    (reservation_slots (db (reserveAll calls s))).
Proof.
  revert s. induction calls as [| [[o userID] req] calls IH]; intros s.
  - simpl. apply Forall2_same_length_lookup_2; [done |].
    intros i x y Hx Hy. rewrite Hx in Hy. injection Hy as <-. lia.
  - simpl.
    set (s1 := final (reserveLivestreamHandler o userID req s)).
    specialize (IH s1).
    assert (H1 : Forall2
              (fun old new =>
                 slot_ID new = slot_ID old
                 /\ slot_StartAt new = slot_StartAt old
                 /\ slot_EndAt new = slot_EndAt old
                 /\ slot_Slot new <= slot_Slot old)
              (reservation_slots (db s)) (reservation_slots (db s1))).
    { subst s1.
      destruct (handler_slots o userID req s) as [-> | ->].
      - apply Forall2_same_length_lookup_2; [done |].
        intros i x y Hx Hy. rewrite Hx in Hy. injection Hy as <-. lia.
      - eapply Forall2_impl; [apply UpdateSlots_rows |].
        simpl. intros old new (Hi & Hs & He & Hc).
        destruct (in_range _ _ old); lia. }
    eapply Forall2_compose; [| apply H1 | apply IH].
    simpl. intros x y z (? & ? & ? & ?) (? & ? & ? & ?). lia.
Qed.

Lemma handler_livestreams (o : Oracle) (userID : Z)
    (req : ReserveLivestreamRequest) (s : State) :
  let r := reserveLivestreamHandler o userID req s in
  (livestreams (db (final r)) = livestreams (db s)
   /\ livestreams_auto_increment (db (final r))
      = livestreams_auto_increment (db s))
  \/ (livestreams (db (final r))
      = livestreams (db s)
        ++ [withID (newLivestreamModel userID req)
                   (livestreams_auto_increment (db s))]
      /\ livestreams_auto_increment (db (final r))
         = livestreams_auto_increment (db s) + 1).
Proof. unfold_handler. repeat branch; auto. Qed.

(** X6.  If the livestream rows have pairwise distinct ids, all below the
    next generated id, this still holds after any sequence of reservation
    calls: a committed reservation never reuses the id of a stored
    livestream. *)
Theorem livestream_ids_stay_distinct
    (calls : list (Oracle * Z * ReserveLivestreamRequest)) (s : State) :
  NoDup (map ls_ID (livestreams (db s))) ->
  Forall (fun m => ls_ID m < livestreams_auto_increment (db s))
         (livestreams (db s)) ->
  let s' := reserveAll calls s in
  NoDup (map ls_ID (livestreams (db s')))
  /\ Forall (fun m => ls_ID m < livestreams_auto_increment (db s'))
            (livestreams (db s')).
Proof.
  revert s. induction calls as [| [[o userID] req] calls IH]; intros s Hnd Hlt.
  - done.
  - simpl. apply IH.
    + destruct (handler_livestreams o userID req s) as [[-> _] | [-> _]];
        [done |].
      rewrite map_app. simpl. apply NoDup_app. split; [done |].
      split; [| apply NoDup_singleton].
      intros x Hx Hx'. apply list_elem_of_singleton in Hx'. subst x.
      apply list_elem_of_fmap in Hx as [m [Hm Hin]].
      rewrite Forall_forall in Hlt. specialize (Hlt m Hin). simpl in Hlt. lia.
    + destruct (handler_livestreams o userID req s) as [[-> ->] | [-> ->]];
        [done |].
      apply Forall_app. split.
      * eapply Forall_impl; [apply Hlt |]. simpl. intros. lia.
      * apply Forall_singleton. simpl. lia.
Qed.

Lemma livestream_ids_stay_distinct_witness :
  NoDup (map ls_ID
           (livestreams
              (db (reserveAll
                     [(noErrors, 1, request [] T0 (T0 + hour));
                      (noErrors, 1, request [7] T0 (T0 + 2 * hour))]
                     (initial 2))))).
Proof.
  apply (livestream_ids_stay_distinct
           [(noErrors, 1, request [] T0 (T0 + hour));
            (noErrors, 1, request [7] T0 (T0 + 2 * hour))]
           (initial 2)).
  - simpl. apply NoDup_nil_2.
  - simpl. apply Forall_nil_2.
Defined.

Lemma mapM_Some_Forall {A B : Type} (f : A -> option B) (l : list A)
    (k : list B) :
  mapM f l = Some k -> Forall (fun x => is_Some (f x)) l.
Proof.
  intros Hm. apply mapM_Some_1 in Hm.
  induction Hm; constructor; eauto.
Qed.




Lemma cacheLivestream_changes (c : Caches) (m : LivestreamModel) :
  cacheLivestream c m <> c.
Proof.
  intros Heq.
  assert (Hl : livestreamModelByUserIDCache (cacheLivestream c m) !! ls_UserID m
               = livestreamModelByUserIDCache c !! ls_UserID m)
    by (by rewrite Heq).
  unfold cacheLivestream, Cache.Set_, Cache.Get in Hl. simpl in Hl.
  rewrite lookup_insert_eq in Hl.
  destruct (livestreamModelByUserIDCache c !! ls_UserID m) as [l |];
    [| discriminate].
  injection Hl as Hl. apply (f_equal length) in Hl.
  rewrite length_app in Hl. simpl in Hl. lia.
Qed.

Lemma handler_caches (o : Oracle) (userID : Z) (req : ReserveLivestreamRequest)
    (s : State) :
  let r := reserveLivestreamHandler o userID req s in
  let id := livestreams_auto_increment (db s) in
  (forall id', ~ In (EvCacheSetById id') (trace r))
  \/ caches (final r)
     = cacheLivestream (caches s) (withID (newLivestreamModel userID req) id).
Proof.
  unfold_handler. repeat branch; auto; left; intros id' Hin; simpl in Hin;
    intuition discriminate.
Qed.

(** X8.  The handler returns the state it was given exactly when it
    returned before the cache writes.  Once the two livestream caches have
    been written, no later failure (tag insert, commit, response) restores
    them. *)
Theorem state_restored_iff_no_cache_write (o : Oracle) (userID : Z)
    (req : ReserveLivestreamRequest) (s : State) :
  let r := reserveLivestreamHandler o userID req s in
  final r = s <-> forall id, ~ In (EvCacheSetById id) (trace r).
Proof.
  intros r. split.
  - intros Hs.
    destruct (handler_caches o userID req s) as [Hno | Hc]; [exact Hno |].
    fold r in Hc. rewrite Hs in Hc. symmetry in Hc.
    by apply cacheLivestream_changes in Hc.
  - apply early_failure_keeps_state.
Qed.

(** ** The rankings of the statistics handlers *)

Section Ranking.
Context {E : Type} (less : E -> E -> bool).
Hypothesis less_irrefl : forall a, less a a = false.
Hypothesis less_trans :
  forall a b c, less a b = true -> less b c = true -> less a c = true.
Hypothesis less_total : forall a b, a = b \/ less a b = true \/ less b a = true.

Lemma less_asym (a b : E) : less a b = true -> less b a = false.
Proof.
  intros Hab. destruct (less b a) eqn:Hba; [| done].
  by rewrite <- (less_irrefl a), (less_trans a b a Hab Hba).
Qed.

Lemma insert_sorted_perm (e : E) (l : list E) :
  insert_sorted less e l ≡ₚ e :: l.
Proof.
  induction l as [| x l IH]; simpl; [done |].
  destruct (less e x); [done |].
  rewrite IH. apply Permutation_swap.
Qed.

Lemma Sort_perm (l : list E) : Sort less l ≡ₚ l.
Proof.
  induction l as [| x l IH]; simpl; [done |].
  fold (Sort less l). by rewrite insert_sorted_perm, IH.
Qed.

Lemma insert_sorted_ascending (e : E) (l : list E) :
  ascending less l -> ascending less (insert_sorted less e l).
Proof.
  induction l as [| x l IH]; simpl.
  - intros _. split; [constructor | done].
  - intros [Hx Hl]. destruct (less e x) eqn:Hex; simpl.
    + split; [| done]. constructor; [by apply less_asym |].
      eapply Forall_impl; [apply Hx |]. simpl. intros y Hyx.
      destruct (less y e) eqn:Hye; [| done].
      by rewrite <- Hyx, (less_trans y e x Hye Hex).
    + split; [| by apply IH].
      rewrite insert_sorted_perm. by constructor.
Qed.

Lemma Sort_ascending (l : list E) : ascending less (Sort less l).
Proof.
  induction l as [| x l IH]; simpl; [done |].
  by apply insert_sorted_ascending.
Qed.

(** Two ascending arrangements of the same entries are the same list. *)
Lemma ascending_unique (l l' : list E) :
  ascending less l -> ascending less l' -> l ≡ₚ l' -> l = l'.
Proof.
  revert l'. induction l as [| a l IH]; intros l' Hl Hl' Hp.
  - by apply Permutation_nil_l in Hp.
  - destruct l' as [| b l'].
    { by apply Permutation_nil_r in Hp. }
    simpl in Hl, Hl'. destruct Hl as [Ha Hl], Hl' as [Hb Hl'].
    assert (Heq : a = b).
    { destruct (less_total a b) as [-> | Hlt]; [done |].
      assert (Hbl : b ∈ a :: l) by (rewrite Hp; left).
      assert (Hal : a ∈ b :: l') by (rewrite <- Hp; left).
      apply elem_of_cons in Hbl as [-> | Hbl]; [done |].
      apply elem_of_cons in Hal as [-> | Hal]; [done |].
      rewrite Forall_forall in Ha, Hb.
      specialize (Ha b Hbl). specialize (Hb a Hal). simpl in Ha, Hb.
      destruct Hlt; congruence. }
    subst b. f_equal. apply IH; [done | done |].
    by apply Permutation_cons_inv in Hp.
Qed.

Lemma filter_length_perm (f : E -> bool) (l l' : list E) :
  l ≡ₚ l' -> length (List.filter f l) = length (List.filter f l').
Proof.
  induction 1 as [| x l l' _ IH | x y l | l1 l2 l3 _ IH1 _ IH2]; simpl.
  - done.
  - destruct (f x); simpl; by rewrite IH.
  - destruct (f x), (f y); simpl; done.
  - by rewrite IH1.
Qed.

Lemma rankLoop_miss (hit : E -> bool) (l1 l2 : list E) (rank : Z) :
  Forall (fun e => hit e = false) l1 ->
  min_int64 <= rank -> rank + Z.of_nat (length l1) <= max_int64 ->
  rankLoop hit (l1 ++ l2) rank = rankLoop hit l2 (rank + Z.of_nat (length l1)).
Proof.
  revert rank. induction l1 as [| e l1 IH]; intros rank Hall Hlo Hhi.
  - simpl. f_equal. lia.
  - apply Forall_cons in Hall as [He Hall]. simpl. rewrite He.
    assert (Hw : wrap64 (rank + 1) = rank + 1).
    { unfold wrap64. unfold min_int64, max_int64 in *.
      simpl length in Hhi. rewrite Z.mod_small by lia. lia. }
    rewrite Hw, IH; [f_equal; simpl length; lia | done | lia |].
    simpl length in Hhi. lia.
Qed.

Lemma last_hit_split (hit : E -> bool) (l : list E) (target : E) :
  target ∈ l -> hit target = true ->
  (forall e, e ∈ l -> hit e = true -> e = target) ->
  exists l1 l2, l = l1 ++ target :: l2 /\ Forall (fun e => hit e = false) l2.
Proof.
  induction l as [| x l IH]; intros Hin Hhit Huniq.
  - by apply elem_of_nil in Hin.
  - destruct (existsb hit l) eqn:Hex.
    + apply existsb_exists in Hex as [e [He Hhe]].
      apply list_elem_of_In in He.
      assert (e = target) by (apply Huniq; [by right | done]). subst e.
      destruct IH as (l1 & l2 & -> & Hall); [done | done | |].
      { intros e' He' Hh. apply Huniq; [by right | done]. }
      by exists (x :: l1), l2.
    + assert (Hall : Forall (fun e => hit e = false) l).
      { apply Forall_forall. intros e He.
        destruct (hit e) eqn:Hh; [| done].
        rewrite <- Hex. symmetry. apply existsb_exists. exists e.
        split; [by apply list_elem_of_In | done]. }
      apply elem_of_cons in Hin as [-> | Hin].
      * by exists [], l.
      * rewrite Forall_forall in Hall. specialize (Hall target Hin).
        simpl in Hall. congruence.
Qed.

Lemma ascending_app (l1 l2 : list E) :
  ascending less (l1 ++ l2) ->
  ascending less l2
  /\ Forall (fun x => Forall (fun y => less y x = false) l2) l1.
Proof.
  induction l1 as [| x l1 IH]; simpl.
  - intros H. split; [done | constructor].
  - intros [Hx Hasc]. destruct (IH Hasc) as [H2 H1]. split; [done |].
    constructor; [| done]. apply Forall_app in Hx. tauto.
Qed.

(** In an ascending ranking where [target] is the only entry the loop stops
    at, the loop counts the entries that [target] is [Less] than. *)
Lemma rankLoop_ascending (hit : E -> bool) (l : list E) (target : E) :
  ascending less l ->
  target ∈ l -> hit target = true ->
  (forall e, e ∈ l -> hit e = true -> e = target) ->
  Z.of_nat (length l) < max_int64 ->
  rankLoop hit (rev l) 1
  = 1 + Z.of_nat (length (List.filter (less target) l)).
Proof.
  intros Hasc Hin Hhit Huniq Hlen.
  destruct (last_hit_split hit l target Hin Hhit Huniq)
    as (l1 & l2 & -> & Hmiss).
  apply ascending_app in Hasc as [Hasc H1]. simpl in Hasc.
  destruct Hasc as [H2 _].
  assert (Hf1 : List.filter (less target) l1 = []).
  { clear -H1. induction l1 as [| x l1 IH]; [done |].
    apply Forall_cons in H1 as [Hx H1]. simpl.
    apply Forall_cons in Hx as [Hx _]. rewrite Hx. by apply IH. }
  assert (Hf2 : List.filter (less target) l2 = l2).
  { clear -H2 Hmiss Hhit less_total. induction l2 as [| y l2 IH]; [done |].
    apply Forall_cons in H2 as [Hy H2].
    apply Forall_cons in Hmiss as [Hm Hmiss]. simpl.
    destruct (less_total target y) as [-> | [Hlt | Hlt]]; [congruence | | congruence].
    rewrite Hlt. f_equal. by apply IH. }
  rewrite List.filter_app. simpl. rewrite less_irrefl, Hf1, Hf2. simpl.
  rewrite rev_app_distr. simpl. rewrite <- List.app_assoc. simpl.
  rewrite length_app in Hlen. simpl in Hlen.
  rewrite rankLoop_miss.
  - simpl. rewrite Hhit. rewrite length_rev. lia.
  - apply Forall_forall. intros e He. rewrite Forall_forall in Hmiss.
    apply Hmiss. apply list_elem_of_In. apply in_rev.
    by apply list_elem_of_In.
  - unfold min_int64. lia.
  - rewrite length_rev. lia.
Qed.

(** When the loop stops at no entry, the rank is one more than the number
    of entries. *)
Lemma rankLoop_absent (hit : E -> bool) (l : list E) :
  Forall (fun e => hit e = false) l ->
  Z.of_nat (length l) < max_int64 ->
  rankLoop hit (rev l) 1 = 1 + Z.of_nat (length l).
Proof.
  intros Hall Hlen.
  rewrite <- (List.app_nil_r (rev l)), rankLoop_miss.
  - simpl. by rewrite length_rev.
  - apply Forall_forall. intros e He. rewrite Forall_forall in Hall.
    apply Hall. apply list_elem_of_In. apply in_rev.
    by apply list_elem_of_In.
  - unfold min_int64. lia.
  - rewrite length_rev. lia.
Qed.

(** The rank found in the sorted ranking, in terms of the ranking as it was
    built. *)
Lemma rankLoop_Sort (hit : E -> bool) (ranking : list E) (target : E) :
  target ∈ ranking -> hit target = true ->
  (forall e, e ∈ ranking -> hit e = true -> e = target) ->
  Z.of_nat (length ranking) < max_int64 ->
  rankLoop hit (rev (Sort less ranking)) 1
  = 1 + Z.of_nat (length (List.filter (less target) ranking)).
Proof.
  intros Hin Hhit Huniq Hlen.
  rewrite (filter_length_perm (less target) ranking (Sort less ranking))
    by (symmetry; apply Sort_perm).
  apply rankLoop_ascending.
  - apply Sort_ascending.
  - by rewrite Sort_perm.
  - done.
  - intros e He. apply Huniq. by rewrite <- Sort_perm.
  - by rewrite Sort_perm.
Qed.

End Ranking.
Lemma LivestreamRanking_Less_irrefl (a : LivestreamRankingEntry) :
  LivestreamRanking_Less a a = false.
Proof.
  unfold LivestreamRanking_Less. rewrite Z.eqb_refl. apply Z.ltb_irrefl.
Qed.

Lemma LivestreamRanking_Less_trans (a b c : LivestreamRankingEntry) :
  LivestreamRanking_Less a b = true -> LivestreamRanking_Less b c = true ->
  LivestreamRanking_Less a c = true.
Proof.
  unfold LivestreamRanking_Less.
  destruct (Z.eqb_spec (lre_Score a) (lre_Score b));
    destruct (Z.eqb_spec (lre_Score b) (lre_Score c));
    destruct (Z.eqb_spec (lre_Score a) (lre_Score c));
    rewrite ?Z.ltb_lt; lia.
Qed.

Lemma LivestreamRanking_Less_total (a b : LivestreamRankingEntry) :
  a = b \/ LivestreamRanking_Less a b = true
  \/ LivestreamRanking_Less b a = true.
Proof.
  unfold LivestreamRanking_Less. destruct a as [ia sa], b as [ib sb]. simpl.
  destruct (Z.eqb_spec sa sb); destruct (Z.eqb_spec sb sa);
    rewrite ?Z.ltb_lt; try lia.
  destruct (Z.lt_trichotomy ia ib) as [? | [-> | ?]]; subst; auto.
Qed.

Lemma string_compare_refl (s : string) : String.compare s s = Eq.
Proof.
  induction s as [| a s IH]; simpl; [done |].
  unfold Ascii.compare. by rewrite N.compare_refl.
Qed.

Lemma string_compare_trans (s1 s2 s3 : string) :
  String.compare s1 s2 = Lt -> String.compare s2 s3 = Lt ->
  String.compare s1 s3 = Lt.
Proof.
  revert s2 s3. induction s1 as [| a s1 IH]; intros [| b s2] [| c s3]; simpl;
    try done.
  unfold Ascii.compare.
  destruct (N.compare_spec (Ascii.N_of_ascii a) (Ascii.N_of_ascii b)) as [Hab | Hab | Hab];
    destruct (N.compare_spec (Ascii.N_of_ascii b) (Ascii.N_of_ascii c)) as [Hbc | Hbc | Hbc];
    try done; intros H12 H23.
  - rewrite Hab, Hbc, N.compare_refl. by eapply IH.
  - rewrite Hab. by apply N.compare_lt_iff in Hbc as ->.
  - rewrite <- Hbc. by apply N.compare_lt_iff in Hab as ->.
  - assert (Hac : (Ascii.N_of_ascii a < Ascii.N_of_ascii c)%N) by lia.
    by apply N.compare_lt_iff in Hac as ->.
Qed.

Lemma UserRanking_Less_irrefl (a : UserRankingEntry) :
  UserRanking_Less a a = false.
Proof.
  unfold UserRanking_Less, String.ltb. rewrite Z.eqb_refl.
  by rewrite string_compare_refl.
Qed.

Lemma UserRanking_Less_trans (a b c : UserRankingEntry) :
  UserRanking_Less a b = true -> UserRanking_Less b c = true ->
  UserRanking_Less a c = true.
Proof.
  unfold UserRanking_Less, String.ltb.
  destruct (Z.eqb_spec (ure_Score a) (ure_Score b));
    destruct (Z.eqb_spec (ure_Score b) (ure_Score c));
    destruct (Z.eqb_spec (ure_Score a) (ure_Score c));
    rewrite ?Z.ltb_lt; try lia.
  destruct (String.compare (ure_Username a) (ure_Username b)) eqn:Hab;
    try done.
  destruct (String.compare (ure_Username b) (ure_Username c)) eqn:Hbc;
    try done.
  by rewrite (string_compare_trans _ _ _ Hab Hbc).
Qed.

Lemma UserRanking_Less_total (a b : UserRankingEntry) :
  a = b \/ UserRanking_Less a b = true \/ UserRanking_Less b a = true.
Proof.
  unfold UserRanking_Less, String.ltb. destruct a as [na sa], b as [nb sb].
  simpl.
  destruct (Z.eqb_spec sa sb); destruct (Z.eqb_spec sb sa);
    rewrite ?Z.ltb_lt; try lia.
  subst sb. rewrite (String.compare_antisym nb na).
  destruct (String.compare na nb) eqn:Hc; simpl; auto.
  apply String.compare_eq_iff in Hc. subst. auto.
Qed.

Lemma filter_map_length {A B : Type} (f : B -> bool) (g : A -> B)
    (h : A -> bool) (l : list A) :
  (forall x, f (g x) = h x) ->
  length (List.filter f (map g l)) = length (List.filter h l).
Proof.
  intros Hfg. induction l as [| x l IH]; simpl; [done |].
  rewrite Hfg. destruct (h x); simpl; by rewrite IH.
Qed.

(** X9.  For a livestream that the aggregate query returned, the rank in
    the statistics is one plus the number of livestreams with a greater
    score, or with the same score and a greater id; the score is the
    [int64] sum of the reaction count and the tip total. *)
Theorem livestreamRank_counts_entries_ahead (entries : list LivestreamScoreRow)
    (livestreamID : Z) (row : LivestreamScoreRow) :
  NoDup (map lsr_LivestreamID entries) ->
  row ∈ entries ->
  lsr_LivestreamID row = livestreamID ->
  Z.of_nat (length entries) < max_int64 ->
  let score r := wrap64 (lsr_Reactions r + lsr_TotalTips r) in
  livestreamRank entries livestreamID
  = 1 + Z.of_nat (length
          (List.filter
             (fun e => (score row <? score e)
                       || ((score row =? score e)
                           && (livestreamID <? lsr_LivestreamID e)))
             entries)).
Proof.
  intros Hnd Hin Hid Hlen score. unfold livestreamRank.
  set (toEntry := fun entry =>
         {| lre_LivestreamID := lsr_LivestreamID entry;
            lre_Score := wrap64 (lsr_Reactions entry + lsr_TotalTips entry) |}).
  rewrite (rankLoop_Sort LivestreamRanking_Less LivestreamRanking_Less_irrefl
             LivestreamRanking_Less_trans LivestreamRanking_Less_total
             _ _ (toEntry row)).
  - f_equal. f_equal. apply filter_map_length. intros e.
    unfold LivestreamRanking_Less, toEntry, score. simpl. rewrite Hid.
    destruct (Z.eqb_spec (wrap64 (lsr_Reactions row + lsr_TotalTips row))
                (wrap64 (lsr_Reactions e + lsr_TotalTips e))) as [Heq | Hne].
    + rewrite Heq, Z.ltb_irrefl. done.
    + by rewrite orb_false_r.
  - apply list_elem_of_fmap. by exists row.
  - simpl. rewrite Hid. apply Z.eqb_refl.
  - intros e He Hh. apply list_elem_of_fmap in He as [r [-> Hr]].
    simpl in Hh. apply Z.eqb_eq in Hh. f_equal.
    apply list_elem_of_lookup in Hr as [i Hi].
    apply list_elem_of_lookup in Hin as [j Hj].
    assert (i = j).
    { eapply NoDup_lookup; [apply Hnd | |].
      - rewrite list_lookup_fmap, Hi. simpl. reflexivity.
      - rewrite list_lookup_fmap, Hj. simpl. congruence. }
    congruence.
  - by rewrite length_map.
Qed.

Lemma livestreamRank_counts_entries_ahead_witness :
  livestreamRank
    [ {| lsr_LivestreamID := 1; lsr_Reactions := 2; lsr_TotalTips := 10 |};
      {| lsr_LivestreamID := 2; lsr_Reactions := 0; lsr_TotalTips := 12 |};
      {| lsr_LivestreamID := 3; lsr_Reactions := 1; lsr_TotalTips := 0 |} ] 1
  = 2.
Proof.
  apply (livestreamRank_counts_entries_ahead
           [ {| lsr_LivestreamID := 1; lsr_Reactions := 2; lsr_TotalTips := 10 |};
             {| lsr_LivestreamID := 2; lsr_Reactions := 0; lsr_TotalTips := 12 |};
             {| lsr_LivestreamID := 3; lsr_Reactions := 1; lsr_TotalTips := 0 |} ]
           1
           {| lsr_LivestreamID := 1; lsr_Reactions := 2; lsr_TotalTips := 10 |}).
  - apply (bool_decide_unpack _). vm_compute. reflexivity.
  - left.
  - reflexivity.
  - vm_compute. reflexivity.
Defined.

(** X10.  For a livestream id that the aggregate query did not return, the
    handler does not fail: the rank is one more than the number of
    livestreams. *)
Theorem livestreamRank_of_unknown_id (entries : list LivestreamScoreRow)
    (livestreamID : Z) :
  Forall (fun e => lsr_LivestreamID e <> livestreamID) entries ->
  Z.of_nat (length entries) < max_int64 ->
  livestreamRank entries livestreamID = 1 + Z.of_nat (length entries).
Proof.
  intros Hall Hlen. unfold livestreamRank.
  rewrite rankLoop_absent.
  - rewrite (Permutation_length (Sort_perm _ _)). by rewrite length_map.
  - apply Forall_forall. intros e He. rewrite Sort_perm in He.
    apply list_elem_of_fmap in He as [r [-> Hr]]. simpl.
    rewrite Forall_forall in Hall. apply Z.eqb_neq. by apply Hall.
  - rewrite (Permutation_length (Sort_perm _ _)). by rewrite length_map.
Qed.

Lemma livestreamRank_of_unknown_id_witness :
  livestreamRank
    [ {| lsr_LivestreamID := 1; lsr_Reactions := 2; lsr_TotalTips := 10 |} ] 5
  = 2.
Proof.
  apply (livestreamRank_of_unknown_id
           [ {| lsr_LivestreamID := 1; lsr_Reactions := 2; lsr_TotalTips := 10 |} ]
           5).
  - repeat constructor. simpl. discriminate.
  - vm_compute. reflexivity.
Defined.

(** X11.  For a user that the aggregate query returned, the rank in the
    user statistics is one plus the number of users with a greater score,
    or with the same score and a name that is greater in the bytewise
    order of strings. *)
Theorem userRank_counts_entries_ahead (entries : list UserScoreRow)
    (username : string) (row : UserScoreRow) :
  NoDup (map usr_Username entries) ->
  row ∈ entries ->
  usr_Username row = username ->
  Z.of_nat (length entries) < max_int64 ->
  let score r := wrap64 (usr_Reactions r + usr_TotalTips r) in
  userRank entries username
  = 1 + Z.of_nat (length
          (List.filter
             (fun e => (score row <? score e)
                       || ((score row =? score e)
                           && String.ltb username (usr_Username e)))
             entries)).
Proof.
  intros Hnd Hin Hid Hlen score. unfold userRank.
  set (toEntry := fun entry =>
         {| ure_Username := usr_Username entry;
            ure_Score := wrap64 (usr_Reactions entry + usr_TotalTips entry) |}).
  rewrite (rankLoop_Sort UserRanking_Less UserRanking_Less_irrefl
             UserRanking_Less_trans UserRanking_Less_total
             _ _ (toEntry row)).
  - f_equal. f_equal. apply filter_map_length. intros e.
    unfold UserRanking_Less, toEntry, score. simpl. rewrite Hid.
    destruct (Z.eqb_spec (wrap64 (usr_Reactions row + usr_TotalTips row))
                (wrap64 (usr_Reactions e + usr_TotalTips e))) as [Heq | Hne].
    + rewrite Heq, Z.ltb_irrefl. done.
    + by rewrite orb_false_r.
  - apply list_elem_of_fmap. by exists row.
  - simpl. rewrite Hid. apply String.eqb_refl.
  - intros e He Hh. apply list_elem_of_fmap in He as [r [-> Hr]].
    simpl in Hh. apply String.eqb_eq in Hh. f_equal.
    apply list_elem_of_lookup in Hr as [i Hi].
    apply list_elem_of_lookup in Hin as [j Hj].
    assert (i = j).
    { eapply NoDup_lookup; [apply Hnd | |].
      - rewrite list_lookup_fmap, Hi. simpl. reflexivity.
      - rewrite list_lookup_fmap, Hj. simpl. congruence. }
    congruence.
  - by rewrite length_map.
Qed.

Lemma userRank_counts_entries_ahead_witness :
  userRank
    [ {| usr_Username := "alice"; usr_Reactions := 2; usr_TotalTips := 10 |};
      {| usr_Username := "bob"; usr_Reactions := 0; usr_TotalTips := 12 |};
      {| usr_Username := "carol"; usr_Reactions := 1; usr_TotalTips := 0 |} ]
    "alice"
  = 2.
Proof.
  apply (userRank_counts_entries_ahead
           [ {| usr_Username := "alice"; usr_Reactions := 2; usr_TotalTips := 10 |};
             {| usr_Username := "bob"; usr_Reactions := 0; usr_TotalTips := 12 |};
             {| usr_Username := "carol"; usr_Reactions := 1; usr_TotalTips := 0 |} ]
           "alice"
           {| usr_Username := "alice"; usr_Reactions := 2; usr_TotalTips := 10 |}).
  - apply (bool_decide_unpack _). vm_compute. reflexivity.
  - left.
  - reflexivity.
  - vm_compute. reflexivity.
Defined.

(** X12.  Both [Less] functions order the entries strictly and totally, so
    the sorted ranking is determined by the entries alone: every ascending
    arrangement of a ranking is the one [Sort] computes, whichever
    algorithm produced it. *)
Theorem sorted_ranking_is_unique :
  (forall ranking sorted : list LivestreamRankingEntry,
     sorted ≡ₚ ranking -> ascending LivestreamRanking_Less sorted ->
     sorted = Sort LivestreamRanking_Less ranking)
  /\ (forall ranking sorted : list UserRankingEntry,
        sorted ≡ₚ ranking -> ascending UserRanking_Less sorted ->
        sorted = Sort UserRanking_Less ranking).
Proof.
  split; intros ranking sorted Hp Ha.
  - apply (ascending_unique LivestreamRanking_Less
             LivestreamRanking_Less_total); [done | |].
    + apply Sort_ascending;
        [apply LivestreamRanking_Less_irrefl | apply LivestreamRanking_Less_trans].
    + by rewrite Sort_perm.
  - apply (ascending_unique UserRanking_Less UserRanking_Less_total);
      [done | |].
    + apply Sort_ascending;
        [apply UserRanking_Less_irrefl | apply UserRanking_Less_trans].
    + by rewrite Sort_perm.
Qed.

(** ** Sessions *)

(** X13.  [verifyUserSession] lets a request through exactly when the
    session could be read, holds an [int64] under [EXPIRES] and under
    [USERID], and the current time is not after the expiry; a session is
    still accepted during the second at which it expires. *)
Theorem verifyUserSession_accepts_iff (sess : option Session) (now : Z) :
  verifyUserSession sess now = SessionOk
  <-> exists values expires userID,
        sess = Some values
        /\ values !! defaultSessionExpiresKey = Some (VInt64 expires)
        /\ values !! defaultUserIDKey = Some (VInt64 userID)
        /\ now <= expires.
Proof.
  unfold verifyUserSession. split.
  - destruct sess as [values |]; [| discriminate].
    destruct (values !! defaultSessionExpiresKey) as [e |] eqn:He;
      [| discriminate].
    destruct (values !! defaultUserIDKey) as [[u | u |] |] eqn:Hu;
      try discriminate.
    destruct e as [expires | str |]; try discriminate.
    destruct (Z.ltb_spec expires now); [discriminate |].
    intros _. by exists values, expires, u.
  - intros (values & expires & userID & -> & -> & -> & Hle).
    destruct (Z.ltb_spec expires now); [lia | done].
Qed.

(** X14.  The assertion [sessionExpires.(int64)] is unchecked: a readable
    session with an [int64] user id whose [EXPIRES] entry has another
    dynamic type makes [verifyUserSession] panic instead of answering, and
    this is the only way it panics. *)
Theorem verifyUserSession_panics_iff (sess : option Session) (now : Z) :
  verifyUserSession sess now = SessionPanic
  <-> exists values expires userID,
        sess = Some values
        /\ values !! defaultSessionExpiresKey = Some expires
        /\ (forall n, expires <> VInt64 n)
        /\ values !! defaultUserIDKey = Some (VInt64 userID).
Proof.
  unfold verifyUserSession. split.
  - destruct sess as [values |]; [| discriminate].
    destruct (values !! defaultSessionExpiresKey) as [e |] eqn:He;
      [| discriminate].
    destruct (values !! defaultUserIDKey) as [[u | u |] |] eqn:Hu;
      try discriminate.
    destruct e as [expires | str |].
    + destruct (expires <? now); discriminate.
    + intros _. by exists values, (VString str), u.
    + intros _. by exists values, VOther, u.
  - intros (values & expires & userID & -> & -> & Hne & ->).
    destruct expires as [n | str |]; [by destruct (Hne n) | done | done].
Qed.

(** X15.  A login answered [200] was made with the name of a stored user
    whose password hash matches, and the session it saves carries that
    user's id and is accepted by [verifyUserSession] from then on for one
    hour, the last second included; after that the answer is
    [401 session has expired], and never a panic. *)
Theorem login_session_is_valid_for_one_hour (env : LoginEnv)
    (users : list UserModel) (req : LoginRequest) (code : Z)
    (saved : Session) :
  loginHandler env users req = LoginNoContent code saved ->
  min_int64 <= loginNow env <= max_int64 - 3600 ->
  (exists userModel,
     In userModel users
     /\ um_Name userModel = login_Username req
     /\ CompareHashAndPassword env (um_HashedPassword userModel)
          (login_Password req) = BcryptNil
     /\ saved !! defaultUserIDKey = Some (VInt64 (um_ID userModel)))
  /\ forall now,
       verifyUserSession (Some saved) now
       = if loginNow env + 3600 <? now
         then SessionError StatusUnauthorized SessionHasExpired
         else SessionOk.
Proof.
  unfold loginHandler. intros Hl Hnow.
  destruct (loginBeginErr env); [discriminate |].
  destruct (loginGetErr env); [discriminate |].
  destruct (List.find _ users) as [userModel |] eqn:Hfind; [| discriminate].
  destruct (loginCommitErr env); [discriminate |].
  destruct (CompareHashAndPassword env _ _) eqn:Hcmp; try discriminate.
  destruct (loginSession env) as [values |]; [| discriminate].
  destruct (loginSaveErr env); [discriminate |].
  injection Hl as _ <-.
  apply find_some in Hfind as [Hin Hname]. apply String.eqb_eq in Hname.
  assert (Hw : wrap64 (loginNow env + 3600) = loginNow env + 3600).
  { unfold wrap64. unfold min_int64, max_int64 in Hnow.
    rewrite Z.mod_small by lia. lia. }
  split.
  - exists userModel. repeat split; try done.
    unfold loginSessionValues, Session.
    rewrite lookup_insert_ne by done. rewrite lookup_insert_ne by done.
    by rewrite lookup_insert_eq.
  - intros now. unfold verifyUserSession, loginSessionValues, Session.
    rewrite Hw, lookup_insert_eq.
    rewrite lookup_insert_ne by done. rewrite lookup_insert_ne by done.
    by rewrite lookup_insert_eq.
Qed.

Lemma login_session_is_valid_for_one_hour_witness :
  verifyUserSession (Some (loginSessionValues ∅ "id" alice T0)) (T0 + 3600)
  = SessionOk.
Proof.
  refine (proj2 (login_session_is_valid_for_one_hour
                   {| loginBeginErr := false; loginGetErr := false;
                      loginCommitErr := false;
                      CompareHashAndPassword :=
                        fun hash password =>
                          if String.eqb hash password then BcryptNil
                          else ErrMismatchedHashAndPassword;
                      loginNow := T0; NewString := "id";
                      loginSession := Some ∅; loginSaveErr := false |}
                   [alice]
                   {| login_Username := "alice"; login_Password := "" |}
                   StatusOK (loginSessionValues ∅ "id" alice T0) _ _)
                (T0 + 3600)).
  - reflexivity.
  - vm_compute. split; discriminate.
Defined.

(** ** Livecomments and moderation *)

Lemma append_nil_l (s : string) : "" +:+ s = s.
Proof. reflexivity. Qed.

Lemma append_cons_l (a : Ascii.ascii) (s t : string) :
  String a s +:+ t = String a (s +:+ t).
Proof. reflexivity. Qed.

Lemma HasPrefix_spec (s prefix : string) :
  HasPrefix s prefix = true <-> exists post, s = prefix +:+ post.
Proof.
  revert s. induction prefix as [| p prefix IH]; intros s; simpl.
  - split; [intros _; exists s; reflexivity | done].
  - destruct s as [| a s].
    + split; [done | intros [post Hp]; discriminate].
    + rewrite andb_true_iff, IH. split.
      * intros [Ha [post ->]]. apply Ascii.eqb_eq in Ha. subst a.
        exists post. reflexivity.
      * intros [post Hp]. rewrite append_cons_l in Hp.
        injection Hp as -> ->.
        split; [apply Ascii.eqb_refl | exists post; reflexivity].
Qed.

(** [Contains s substr] holds exactly when [s] is [substr] between some
    prefix and some suffix. *)
Lemma Contains_spec (s substr : string) :
  Contains s substr = true
  <-> exists pre post, s = pre +:+ substr +:+ post.
Proof.
  induction s as [| a s IH].
  - simpl. rewrite orb_false_r, HasPrefix_spec. split.
    + intros [post Hp]. exists EmptyString, post. exact Hp.
    + intros (pre & post & Hp). destruct pre as [| b pre].
      * exists post. exact Hp.
      * rewrite append_cons_l in Hp. discriminate.
  - change (Contains (String a s) substr)
      with (HasPrefix (String a s) substr || Contains s substr).
    rewrite orb_true_iff, IH, HasPrefix_spec. split.
    + intros [[post Hp] | (pre & post & ->)].
      * exists EmptyString, post. exact Hp.
      * exists (String a pre), post. reflexivity.
    + intros (pre & post & Hp). destruct pre as [| b pre].
      * left. exists post. exact Hp.
      * right. rewrite append_cons_l in Hp. injection Hp as _ ->.
        exists pre, post. reflexivity.
Qed.

Lemma spamLoop_existsb (comment : string) (ngwords : list NGWord) :
  spamLoop comment ngwords 0
  = existsb (fun w => Contains comment (ng_Word w)) ngwords.
Proof.
  induction ngwords as [| w ngwords IH]; simpl; [done |].
  destruct (Contains comment (ng_Word w)); simpl; [done | exact IH].
Qed.

(** X16.  For a cached livestream whose NG words could be read, a comment
    is refused with [400] as spam exactly when some NG word that the
    livestream's owner registered for that livestream occurs in it as a
    substring; words registered under another user id are not consulted. *)
Theorem comment_is_spam_iff_owner_word_occurs (env : CommentEnv)
    (userID livestreamID : Z) (req : PostLivecommentRequest) (s : State)
    (c : CommentDB) (livestreamModel : LivestreamModel) :
  Cache.Get (livestreamModelByIdCache (caches s)) livestreamID
  = Some livestreamModel ->
  ngwordsErr env = false ->
  (postLivecommentHandler env userID livestreamID req s c).1
  = CommentError StatusBadRequest CommentJudgedSpam
  <-> exists w pre post,
        In w (ng_words c)
        /\ ng_UserID w = ls_UserID livestreamModel
        /\ ng_LivestreamID w = ls_ID livestreamModel
        /\ plr_Comment req = pre +:+ ng_Word w +:+ post.
Proof.
  intros Hget Herr. unfold postLivecommentHandler.
  rewrite Hget, Herr, spamLoop_existsb.
  destruct (existsb _ _) eqn:Hex.
  - split; [intros _ | done].
    apply existsb_exists in Hex as [w [Hw Hc]].
    apply filter_In in Hw as [Hin Hw]. apply andb_prop in Hw as [Hu Hl].
    apply Z.eqb_eq in Hu, Hl. apply Contains_spec in Hc as (pre & post & Hc).
    by exists w, pre, post.
  - split.
    + destruct (insertLivecommentErr env); [discriminate |]. simpl.
      destruct (livecommentLastInsertIdErr env); [discriminate |].
      destruct (fillLivecommentResponse _ _ _ _); discriminate.
    + intros (w & pre & post & Hin & Hu & Hl & Hc). exfalso.
      assert (Ht : existsb (fun w => Contains (plr_Comment req) (ng_Word w))
                     (SelectNGWordsOfOwner c (ls_UserID livestreamModel)
                        (ls_ID livestreamModel)) = true).
      { apply existsb_exists. exists w. split.
        - apply filter_In. split; [done |].
          by rewrite Hu, Hl, !Z.eqb_refl.
        - apply Contains_spec. by exists pre, post. }
      congruence.
Qed.

Lemma comment_is_spam_iff_owner_word_occurs_witness :
  (postLivecommentHandler noCommentErrors 1 1 (say "a bad word")
     reserved comments).1
  = CommentError StatusBadRequest CommentJudgedSpam.
Proof.
  apply (comment_is_spam_iff_owner_word_occurs noCommentErrors 1 1
           (say "a bad word") reserved comments
           (withID (newLivestreamModel 1 (request [7] T0 (T0 + hour))) 1)).
  - reflexivity.
  - reflexivity.
  - exists (word 1 1 1 "bad"), "a "%string, " word"%string.
    repeat split. by left.
Defined.

(** X17.  An empty NG word of the owner matches every comment: once it is
    registered for a livestream, every comment on that livestream is
    refused as spam and nothing is stored. *)
Theorem empty_ng_word_refuses_every_comment (env : CommentEnv)
    (userID livestreamID : Z) (req : PostLivecommentRequest) (s : State)
    (c : CommentDB) (livestreamModel : LivestreamModel) (w : NGWord) :
  Cache.Get (livestreamModelByIdCache (caches s)) livestreamID
  = Some livestreamModel ->
  ngwordsErr env = false ->
  In w (ng_words c) ->
  ng_UserID w = ls_UserID livestreamModel ->
  ng_LivestreamID w = ls_ID livestreamModel ->
  ng_Word w = EmptyString ->
  postLivecommentHandler env userID livestreamID req s c
  = (CommentError StatusBadRequest CommentJudgedSpam, c).
Proof.
  intros Hget Herr Hin Hu Hl Hw. unfold postLivecommentHandler.
  rewrite Hget, Herr, spamLoop_existsb.
  assert (Hex : existsb (fun w => Contains (plr_Comment req) (ng_Word w))
                  (SelectNGWordsOfOwner c (ls_UserID livestreamModel)
                     (ls_ID livestreamModel)) = true).
  { apply existsb_exists. exists w. split.
    - apply filter_In. split; [done |]. by rewrite Hu, Hl, !Z.eqb_refl.
    - rewrite Hw. by destruct (plr_Comment req). }
  by rewrite Hex.
Qed.

Lemma empty_ng_word_refuses_every_comment_witness :
  postLivecommentHandler noCommentErrors 1 1 (say "hello") reserved
    {| ng_words := [word 1 1 1 ""]; ng_words_auto_increment := 2;
       livecomments := []; livecomments_auto_increment := 1 |}
  = (CommentError StatusBadRequest CommentJudgedSpam,
     {| ng_words := [word 1 1 1 ""]; ng_words_auto_increment := 2;
        livecomments := []; livecomments_auto_increment := 1 |}).
Proof.
  apply (empty_ng_word_refuses_every_comment noCommentErrors 1 1 (say "hello")
           reserved _
           (withID (newLivestreamModel 1 (request [7] T0 (T0 + hour))) 1)
           (word 1 1 1 "")).
  - reflexivity.
  - reflexivity.
  - by left.
  - reflexivity.
  - reflexivity.
  - reflexivity.
Defined.

(** X18.  Initialization fills the tag and user caches only.  Until a
    reservation is made, every livestream id misses the by-id cache:
    comments are answered [404 livestream not found] and moderation is
    refused ([400], or [500] when its transaction cannot begin), whatever
    livestreams the store holds, and the tables stay as they were. *)
Theorem no_comment_or_moderation_right_after_initialization
    (tags : list TagModel) (users : list UserModel) (d : DB)
    (env : CommentEnv) (menv : ModerateEnv) (like : string -> string -> bool)
    (userID livestreamID : Z) (req : PostLivecommentRequest) (ngword : string)
    (c : CommentDB) :
  let s := {| db := d; caches := initializeCaches tags users |} in
  postLivecommentHandler env userID livestreamID req s c
  = (CommentError StatusNotFound LivestreamNotFound, c)
  /\ moderateHandler like menv userID livestreamID ngword s c
     = (if modBeginErr menv
        then ModerateError StatusInternalServerError
               ModFailedToBeginTransaction
        else ModerateError StatusBadRequest CannotModerateOthersLivestream,
        c).
Proof.
  intros s. split.
  - reflexivity.
  - unfold moderateHandler. by destruct (modBeginErr menv).
Qed.

Lemma created_fill (o : Oracle) (userID : Z) (req : ReserveLivestreamRequest)
    (s : State) (livestream : Livestream) :
  let r := reserveLivestreamHandler o userID req s in
  let livestreamModel :=
    withID (newLivestreamModel userID req) (livestreams_auto_increment (db s)) in
  resp r = JSON StatusCreated livestream ->
  fillLivestreamResponse o (final r) livestreamModel = Some livestream
  /\ caches (final r) = cacheLivestream (caches s) livestreamModel.
Proof.
  intros r livestreamModel Hr. subst r livestreamModel. revert Hr.
  unfold_handler.
  repeat branch; try done; intros Hr; injection Hr as <-; by split.
Qed.

(** X19.  A comment on a livestream that has just been reserved: when the
    author is a cached user, no NG word of the owner applies and no
    storage call fails, the answer is [201], the comment row is appended
    with the next generated id, and the livestream embedded in the answer
    is the one the reservation returned. *)
Theorem comment_after_reservation (o : Oracle) (ownerID : Z)
    (req : ReserveLivestreamRequest) (s : State) (livestream : Livestream)
    (env : CommentEnv) (authorID : Z) (creq : PostLivecommentRequest)
    (c : CommentDB) :
  let r := reserveLivestreamHandler o ownerID req s in
  let livestreamID := livestreams_auto_increment (db s) in
  resp r = JSON StatusCreated livestream ->
  ownerFill env = o ->
  is_Some (ownerTheme (authorFill env)) ->
  is_Some (Cache.Get (userModelByIdCache (caches s)) authorID) ->
  ngwordsErr env = false ->
  insertLivecommentErr env = false ->
  livecommentLastInsertIdErr env = false ->
  SelectNGWordsOfOwner c ownerID livestreamID = [] ->
  exists body,
    postLivecommentHandler env authorID livestreamID creq (final r) c
    = (CommentJSON StatusCreated body,
       (InsertLivecomment c
          {| lc_ID := 0; lc_UserID := authorID;
             lc_LivestreamID := livestreamID;
             lc_Comment := plr_Comment creq; lc_Tip := plr_Tip creq;
             lc_CreatedAt := commentNow env |}).1)
    /\ c_ID body = livecomments_auto_increment c
    /\ c_Livestream body = livestream
    /\ c_Comment body = plr_Comment creq
    /\ c_Tip body = plr_Tip creq.
Proof.
  intros r livestreamID Hr Ho [th Hth] [author Hauthor] Hng Hins Hlast Hnone.
  destruct (created_fill o ownerID req s livestream Hr) as [Hfill Hcaches].
  fold r in Hfill, Hcaches. fold livestreamID in Hfill, Hcaches.
  set (livestreamModel := withID (newLivestreamModel ownerID req) livestreamID)
    in *.
  assert (Hget : Cache.Get (livestreamModelByIdCache (caches (final r)))
                   livestreamID = Some livestreamModel).
  { rewrite Hcaches. unfold cacheLivestream, Cache.Get, Cache.Set_. simpl.
    apply lookup_insert_eq. }
  assert (Husers : userModelByIdCache (caches (final r))
                   = userModelByIdCache (caches s)).
  { by rewrite Hcaches. }
  unfold postLivecommentHandler.
  rewrite Hget, Hng. simpl. fold livestreamID. rewrite Hnone. simpl.
  rewrite Hins. simpl. rewrite Hlast.
  unfold fillLivecommentResponse. simpl.
  rewrite Husers, Hauthor. unfold fillUserResponse at 1. rewrite Hth.
  destruct th as [theme iconHash]. rewrite Hget, Ho, Hfill.
  eexists. split; [reflexivity |]. by repeat split.
Qed.

Lemma comment_after_reservation_witness :
  exists body,
    (postLivecommentHandler noCommentErrors 1 1 (say "hello") reserved
       noComments).1
    = CommentJSON StatusCreated body.
Proof.
  destruct (comment_after_reservation noErrors 1
              (request [7] T0 (T0 + hour)) (initial 1)
              {| l_ID := 1;
                 l_Owner :=
                   {| user_ID := 1; user_Name := "alice";
                      user_DisplayName := "Alice"; user_Description := "";
                      user_Theme := {| theme_ID := 1; theme_DarkMode := false |};
                      user_IconHash := "00" |};
                 l_Title := "title"; l_Description := "";
                 l_PlaylistUrl := ""; l_ThumbnailUrl := "";
                 l_Tags := [{| tag_ID := 7; tag_Name := "chat" |}];
                 l_StartAt := T0; l_EndAt := T0 + hour |}
              noCommentErrors 1 (say "hello") noComments)
    as [body [Hbody _]].
  - reflexivity.
  - reflexivity.
  - by eexists.
  - by eexists.
  - reflexivity.
  - reflexivity.
  - reflexivity.
  - reflexivity.
  - exists body. exact (f_equal fst Hbody).
Defined.

Lemma SelectNGWords_after_insert (c : CommentDB) (w : NGWord) :
  SelectNGWords (InsertNGWord c w).1 (ng_LivestreamID w)
  = SelectNGWords c (ng_LivestreamID w)
    ++ [{| ng_ID := ng_words_auto_increment c; ng_UserID := ng_UserID w;
           ng_LivestreamID := ng_LivestreamID w; ng_Word := ng_Word w;
           ng_CreatedAt := ng_CreatedAt w |}].
Proof.
  unfold SelectNGWords, InsertNGWord. simpl.
  rewrite List.filter_app. simpl. by rewrite Z.eqb_refl.
Qed.

(** What a successful moderation did: the word was stored under the
    caller's id, and the comments were filtered by the assembled
    condition over the livestream's words, the new one last. *)
Lemma moderate_success (like : string -> string -> bool) (env : ModerateEnv)
    (userID livestreamID : Z) (ngword : string) (s : State) (c c' : CommentDB)
    (code wordID : Z) :
  moderateHandler like env userID livestreamID ngword s c
  = (ModerateJSON code wordID, c') ->
  let new := {| ng_ID := ng_words_auto_increment c; ng_UserID := userID;
                ng_LivestreamID := livestreamID; ng_Word := ngword;
                ng_CreatedAt := modNow env |} in
  let ngwords := SelectNGWords c livestreamID ++ [new] in
  wordID = ng_words_auto_increment c
  /\ ng_words c' = ng_words c ++ [new]
  /\ livecomments c'
     = List.filter
         (fun r => negb (default false
                           (deleteCondition like livestreamID ngwords r)))
         (livecomments c).
Proof.
  unfold moderateHandler.
  destruct (modBeginErr env); [discriminate |].
  destruct (Cache.Get _ _); [| discriminate].
  destruct (modInsertErr env); [discriminate |].
  pose proof (SelectNGWords_after_insert c
                {| ng_ID := 0; ng_UserID := userID;
                   ng_LivestreamID := livestreamID; ng_Word := ngword;
                   ng_CreatedAt := modNow env |}) as Hsel.
  simpl in Hsel. simpl.
  destruct (modLastInsertIdErr env); [discriminate |].
  destruct (modSelectErr env); [discriminate |].
  destruct (modDeleteErr env); [discriminate |].
  rewrite Hsel. unfold DeleteLivecomments.
  destruct (SelectNGWords c livestreamID ++ _) as [| first others] eqn:Hw;
    [discriminate |].
  destruct (modCommitErr env); [discriminate |].
  intros Heq. injection Heq as _ <- <-. by repeat split.
Qed.







Lemma post_spam_iff_loop (env : CommentEnv) (userID livestreamID : Z)
    (req : PostLivecommentRequest) (s : State) (c : CommentDB)
    (livestreamModel : LivestreamModel) :
  Cache.Get (livestreamModelByIdCache (caches s)) livestreamID
  = Some livestreamModel ->
  ngwordsErr env = false ->
  (postLivecommentHandler env userID livestreamID req s c).1
  = CommentError StatusBadRequest CommentJudgedSpam
  <-> spamLoop (plr_Comment req)
        (SelectNGWordsOfOwner c (ls_UserID livestreamModel)
           (ls_ID livestreamModel)) 0 = true.
Proof.
  intros Hget Herr. unfold postLivecommentHandler. rewrite Hget, Herr.
  destruct (spamLoop _ _ _); [done |].
  split; [| done].
  destruct (insertLivecommentErr env); [discriminate |]. simpl.
  destruct (livecommentLastInsertIdErr env); [discriminate |].
  destruct (fillLivecommentResponse _ _ _ _); discriminate.
Qed.

(** X23.  The spam check reads the words stored under the owner's user id
    only.  A word that a user other than the owner registered through
    [moderateHandler] changes no verdict of [postLivecommentHandler]: a
    comment is refused as spam after the moderation exactly when it was
    before. *)
Theorem word_of_other_user_filters_no_new_comment
    (like : string -> string -> bool) (env : ModerateEnv)
    (userID livestreamID : Z) (ngword : string) (s : State) (c c' : CommentDB)
    (code wordID : Z) (livestreamModel : LivestreamModel)
    (cenv : CommentEnv) (authorID : Z) (req : PostLivecommentRequest) :
  moderateHandler like env userID livestreamID ngword s c
  = (ModerateJSON code wordID, c') ->
  Cache.Get (livestreamModelByIdCache (caches s)) livestreamID
  = Some livestreamModel ->
  userID <> ls_UserID livestreamModel ->
  ngwordsErr cenv = false ->
  (postLivecommentHandler cenv authorID livestreamID req s c').1
  = CommentError StatusBadRequest CommentJudgedSpam
  <-> (postLivecommentHandler cenv authorID livestreamID req s c).1
      = CommentError StatusBadRequest CommentJudgedSpam.
Proof.
  intros Hm Hget Hne Herr.
  rewrite !(post_spam_iff_loop cenv authorID livestreamID req s _
              livestreamModel Hget Herr).
  apply moderate_success in Hm as (_ & Hw & _).
  unfold SelectNGWordsOfOwner. rewrite Hw, List.filter_app. simpl.
  destruct (Z.eqb_spec userID (ls_UserID livestreamModel)); [done |].
  simpl. by rewrite List.app_nil_r.
Qed.

Lemma word_of_other_user_filters_no_new_comment_witness :
  (postLivecommentHandler noCommentErrors 1 1 (say "so ugly") reserved
     (moderateHandler Contains noModerateErrors 2 1 "ugly" reserved
        comments).2).1
  = CommentError StatusBadRequest CommentJudgedSpam
  <-> (postLivecommentHandler noCommentErrors 1 1 (say "so ugly") reserved
         comments).1
      = CommentError StatusBadRequest CommentJudgedSpam.
Proof.
  apply (word_of_other_user_filters_no_new_comment Contains noModerateErrors
           2 1 "ugly" reserved comments _ StatusCreated 2
           (withID (newLivestreamModel 1 (request [7] T0 (T0 + hour))) 1)
           noCommentErrors 1 (say "so ugly")).
  - reflexivity.
  - reflexivity.
  - discriminate.
  - reflexivity.
Defined.

(** X24.  [postLivecommentHandler] writes outside any transaction.  The
    comment table is left as it was by the answers given before the
    insert, and holds the new row, with the next generated id, after every
    later answer, the two [500] answers that follow the insert included. *)
Theorem comment_insert_is_never_undone (env : CommentEnv)
    (userID livestreamID : Z) (req : PostLivecommentRequest) (s : State)
    (c : CommentDB) :
  let r := postLivecommentHandler env userID livestreamID req s c in
  let row := {| lc_ID := livecomments_auto_increment c; lc_UserID := userID;
                lc_LivestreamID := livestreamID;
                lc_Comment := plr_Comment req; lc_Tip := plr_Tip req;
                lc_CreatedAt := commentNow env |} in
  ((r.1 = CommentError StatusNotFound LivestreamNotFound
    \/ r.1 = CommentError StatusInternalServerError FailedToGetNGWords
    \/ r.1 = CommentError StatusBadRequest CommentJudgedSpam
    \/ r.1 = CommentError StatusInternalServerError FailedToInsertLivecomment)
   /\ r.2 = c)
  \/ ((r.1 = CommentError StatusInternalServerError
               FailedToGetLastInsertedLivecommentID
       \/ r.1 = CommentError StatusInternalServerError FailedToFillLivecomment
       \/ exists body, r.1 = CommentJSON StatusCreated body)
      /\ livecomments r.2 = livecomments c ++ [row]
      /\ ng_words r.2 = ng_words c).
Proof.
  intros r row. subst r row. unfold postLivecommentHandler.
  destruct (Cache.Get _ _) as [lm |]; [| left; auto].
  destruct (ngwordsErr env); [left; auto |].
  destruct (spamLoop _ _ _); [left; auto 6 |].
  destruct (insertLivecommentErr env); [left; auto 6 |]. simpl.
  destruct (livecommentLastInsertIdErr env); [right; auto |].
  destruct (fillLivecommentResponse _ _ _ _); right; eauto 6.
Qed.

(** ** [fillLivestreamResponseBulk] against [fillLivestreamResponse] *)

Lemma foldl_insert_lookup {A V : Type} (key : A -> Z) (val : A -> V)
    (l : list A) (m0 : gmap Z V) (k : Z) (v : V) :
  (forall x, x ∈ l -> key x = k -> val x = v) ->
  m0 !! k = Some v \/ (exists x, x ∈ l /\ key x = k) ->
  foldl (fun m x => <[key x := val x]> m) m0 l !! k = Some v.
Proof.
  revert m0. induction l as [| a l IH]; intros m0 Hcons Hex; simpl.
  - destruct Hex as [Hm | (x & Hx & _)]; [done | by apply elem_of_nil in Hx].
  - apply IH.
    + intros x Hx. apply Hcons. by right.
    + destruct (decide (key a = k)) as [Hk | Hk].
      * left. rewrite Hk, lookup_insert_eq. f_equal. apply Hcons; [left | done].
      * destruct Hex as [Hm | (x & Hx & Hkx)].
        -- left. by rewrite lookup_insert_ne.
        -- apply elem_of_cons in Hx as [-> | Hx]; [done |]. right. eauto.
Qed.

Lemma livestreamTagsMap_step (m0 : gmap Z (list LivestreamTagModel))
    (l : list LivestreamTagModel) (id : Z) :
  default []
    (foldl (fun livestreamTagsMap livestreamTagsModel =>
              match livestreamTagsMap !! lt_LivestreamID livestreamTagsModel with
              | None =>
                  <[lt_LivestreamID livestreamTagsModel := [livestreamTagsModel]]>
                    livestreamTagsMap
              | Some group =>
                  <[lt_LivestreamID livestreamTagsModel :=
                      group ++ [livestreamTagsModel]]> livestreamTagsMap
              end) m0 l !! id)
  = default [] (m0 !! id)
    ++ List.filter (fun r => lt_LivestreamID r =? id) l.
Proof.
  revert m0. induction l as [| r l IH]; intros m0; simpl.
  - by rewrite List.app_nil_r.
  - rewrite IH. destruct (Z.eqb_spec (lt_LivestreamID r) id) as [Heq | Hne].
    + rewrite Heq. destruct (m0 !! id) as [group |] eqn:Hm;
        rewrite lookup_insert_eq; simpl; [by rewrite <- List.app_assoc | done].
    + destruct (m0 !! lt_LivestreamID r); by rewrite lookup_insert_ne.
Qed.

(** The group of a livestream is the result of the single-livestream
    query. *)
Lemma livestreamTagsMapOf_lookup (d : DB) (livestreamIDs : list Z) (id : Z) :
  In id livestreamIDs ->
  default [] (livestreamTagsMapOf (SelectLivestreamTagsIn d livestreamIDs) !! id)
  = SelectLivestreamTags d id.
Proof.
  intros Hin. unfold livestreamTagsMapOf. rewrite livestreamTagsMap_step.
  rewrite lookup_empty. simpl.
  unfold SelectLivestreamTagsIn, SelectLivestreamTags.
  induction (livestream_tags d) as [| r l IH]; simpl; [done |].
  destruct (Z.eqb_spec (lt_LivestreamID r) id) as [Heq | Hne].
  - assert (Hex : existsb (Z.eqb (lt_LivestreamID r)) livestreamIDs = true).
    { apply existsb_exists. exists id. split; [done | by apply Z.eqb_eq]. }
    rewrite Hex. simpl. destruct (Z.eqb_spec (lt_LivestreamID r) id); [| done].
    by rewrite IH.
  - destruct (existsb _ _); simpl; [| done].
    by destruct (Z.eqb_spec (lt_LivestreamID r) id).
Qed.

Lemma collectTagModels_mapM (tags : gmap Z TagModel)
    (l : list LivestreamTagModel) :
  match mapM (fun r => Cache.Get tags (lt_TagID r)) l with
  | Some tagModels => collectTagModels tags l = (tagModels, false)
  | None => (collectTagModels tags l).2 = true
  end.
Proof.
  induction l as [| r l IH]; simpl; [done |].
  destruct (Cache.Get tags (lt_TagID r)) as [t |]; simpl; [| done].
  destruct (mapM _ l) as [ts |]; simpl.
  - by rewrite IH.
  - by destruct (collectTagModels tags l).
Qed.

Lemma mapM_ext_Some {A B : Type} (f : A -> option B) (g : A -> B)
    (l : list A) :
  (forall x, x ∈ l -> f x = Some (g x)) -> mapM f l = Some (map g l).
Proof.
  induction l as [| a l IH]; intros Hf; simpl; [done |].
  rewrite (Hf a) by left. simpl. rewrite IH; [done |].
  intros x Hx. apply Hf. by right.
Qed.

Lemma mapM_cons_eq {A B : Type} (f : A -> option B) (x : A) (l : list A) :
  mapM f (x :: l)
  = match f x with
    | None => None
    | Some y => match mapM f l with None => None | Some k => Some (y :: k) end
    end.
Proof. simpl. destruct (f x); [| done]. simpl. by destruct (mapM f l). Qed.

Section Bulk.
Variable env : BulkEnv.
Variable s : State.
Variable o : Z -> Oracle.

Hypothesis users_keyed_by_id :
  forall k userModel,
    Cache.Get (userModelByIdCache (caches s)) k = Some userModel ->
    um_ID userModel = k.
Hypothesis tags_keyed_by_id :
  forall k tagModel,
    Cache.Get (tagModelCache (caches s)) k = Some tagModel ->
    tagm_ID tagModel = k.
Hypothesis o_theme :
  forall userID,
    ownerTheme (o userID)
    = if usersErr env then None else Some (themeAndHash env userID).
Hypothesis o_tags : forall userID, selectTagsErr (o userID) = bulkTagsErr env.

Let users := userModelByIdCache (caches s).
Let tags := tagModelCache (caches s).

Let toUser (userModel : UserModel) : User :=
  {| user_ID := um_ID userModel; user_Name := um_Name userModel;
     user_DisplayName := um_DisplayName userModel;
     user_Description := um_Description userModel;
     user_Theme := (themeAndHash env (um_ID userModel)).1;
     user_IconHash := (themeAndHash env (um_ID userModel)).2 |}.

Let toLivestream (m : LivestreamModel) (owner : User) (tagModels : list TagModel)
  : Livestream :=
  {| l_ID := ls_ID m; l_Owner := owner; l_Title := ls_Title m;
     l_Description := ls_Description m; l_PlaylistUrl := ls_PlaylistUrl m;
     l_ThumbnailUrl := ls_ThumbnailUrl m; l_Tags := map tagOfModel tagModels;
     l_StartAt := ls_StartAt m; l_EndAt := ls_EndAt m |}.

Lemma single_unfold (m : LivestreamModel) :
  fillLivestreamResponse (o (ls_UserID m)) s m
  = match users !! ls_UserID m with
    | None => None
    | Some userModel =>
        if usersErr env then None
        else if bulkTagsErr env then None
        else
          match mapM (fun r => Cache.Get tags (lt_TagID r))
                     (SelectLivestreamTags (db s) (ls_ID m)) with
          | None => None
          | Some tagModels =>
              Some (toLivestream m (toUser userModel) tagModels)
          end
    end.
Proof.
  unfold fillLivestreamResponse, fillUserResponse, Cache.Get at 1.
  fold users. destruct (users !! ls_UserID m) as [userModel |] eqn:Hu; [| done].
  rewrite o_theme, o_tags. destruct (usersErr env); [done |].
  assert (Hid : um_ID userModel = ls_UserID m)
    by (by apply users_keyed_by_id).
  rewrite <- Hid. destruct (themeAndHash env (um_ID userModel)) eqn:Hth.
  destruct (bulkTagsErr env); [done |]. fold tags.
  destruct (mapM _ _); [| done].
  unfold toLivestream, toUser. by rewrite Hth.
Qed.

(** The facts available once every early return of the bulk function has
    been passed. *)
Section Passed.
Variable livestreamModels : list LivestreamModel.
Variable ownerModels : list UserModel.
Variable allTagModels : list TagModel.

Let all :=
  SelectLivestreamTagsIn (db s) (map ls_ID livestreamModels).

Hypothesis owners_found :
  mapM (fun m => Cache.Get users (ls_UserID m)) livestreamModels
  = Some ownerModels.
Hypothesis no_usersErr : usersErr env = false.
Hypothesis no_tagsErr : bulkTagsErr env = false.
Hypothesis tags_found :
  mapM (fun r => Cache.Get tags (lt_TagID r)) all = Some allTagModels.

Lemma owner_in_map (m : LivestreamModel) :
  m ∈ livestreamModels ->
  exists userModel,
    users !! ls_UserID m = Some userModel
    /\ ownersMapOf (map toUser ownerModels) !! ls_UserID m
       = Some (toUser userModel).
Proof.
  intros Hm. apply mapM_Some_1 in owners_found as Hf2.
  apply list_elem_of_lookup in Hm as [i Hi].
  destruct (Forall2_lookup_l _ _ _ _ _ Hf2 Hi) as (userModel & Hl & Hget).
  exists userModel. split; [exact Hget |].
  unfold ownersMapOf.
  apply (foldl_insert_lookup user_ID (fun owner => owner)).
  - intros x Hx Hk. apply list_elem_of_fmap in Hx as [um' [-> Hum']].
    apply list_elem_of_lookup in Hum' as [j Hj].
    destruct (Forall2_lookup_r _ _ _ _ _ Hf2 Hj) as (m' & Hm' & Hget').
    simpl in Hk. apply users_keyed_by_id in Hget' as Hid'.
    rewrite Hk in Hid'. unfold Cache.Get in Hget', Hget.
    rewrite <- Hid' in Hget'. fold users in Hget'. congruence.
  - right. exists (toUser userModel). split.
    + apply list_elem_of_fmap. exists userModel. split; [done |].
      by eapply list_elem_of_lookup_2.
    + simpl. by apply users_keyed_by_id.
Qed.

Lemma rows_in_all (m : LivestreamModel) (r : LivestreamTagModel) :
  m ∈ livestreamModels ->
  In r (SelectLivestreamTags (db s) (ls_ID m)) -> In r all.
Proof.
  intros Hm Hr. unfold SelectLivestreamTags in Hr.
  apply filter_In in Hr as [Hin Hid]. apply Z.eqb_eq in Hid.
  apply filter_In. split; [done |]. apply existsb_exists.
  exists (ls_ID m). split; [| by apply Z.eqb_eq].
  apply in_map. by apply list_elem_of_In.
Qed.

Lemma tag_in_map (r : LivestreamTagModel) :
  In r all ->
  exists tagModel,
    tags !! lt_TagID r = Some tagModel
    /\ tagsMapOf allTagModels !! lt_TagID r = Some (tagOfModel tagModel).
Proof.
  intros Hr. apply mapM_Some_1 in tags_found as Hf2.
  apply list_elem_of_In, list_elem_of_lookup in Hr as [i Hi].
  destruct (Forall2_lookup_l _ _ _ _ _ Hf2 Hi) as (tagModel & Hl & Hget).
  exists tagModel. split; [exact Hget |].
  unfold tagsMapOf. apply (foldl_insert_lookup tagm_ID tagOfModel).
  - intros x Hx Hk. apply list_elem_of_lookup in Hx as [j Hj].
    destruct (Forall2_lookup_r _ _ _ _ _ Hf2 Hj) as (r' & Hr' & Hget').
    apply tags_keyed_by_id in Hget' as Hid'. rewrite Hk in Hid'.
    unfold Cache.Get in Hget', Hget. rewrite <- Hid' in Hget'.
    fold tags in Hget'. congruence.
  - right. exists tagModel. split; [by eapply list_elem_of_lookup_2 |].
    by apply tags_keyed_by_id.
Qed.

Lemma tags_of_livestream (m : LivestreamModel) :
  m ∈ livestreamModels ->
  exists tagModels,
    mapM (fun r => Cache.Get tags (lt_TagID r))
         (SelectLivestreamTags (db s) (ls_ID m)) = Some tagModels
    /\ map (fun r => default zeroTag (tagsMapOf allTagModels !! lt_TagID r))
           (default [] (livestreamTagsMapOf all !! ls_ID m))
       = map tagOfModel tagModels.
Proof.
  intros Hm. unfold all at 1.
  rewrite livestreamTagsMapOf_lookup
    by (apply in_map; by apply list_elem_of_In).
  pose proof (fun r => rows_in_all m r Hm) as Hsub.
  induction (SelectLivestreamTags (db s) (ls_ID m)) as [| r rows IH].
  - by exists [].
  - destruct IH as (tagModels & Hmap & Htags).
    { intros r' Hr'. apply Hsub. by right. }
    destruct (tag_in_map r) as (tagModel & Hget & Hlook).
    { apply Hsub. by left. }
    exists (tagModel :: tagModels). split.
    + change (Cache.Get tags (lt_TagID r) = Some tagModel) in Hget.
      by rewrite mapM_cons_eq, Hget, Hmap.
    + simpl. rewrite Hlook. simpl. by rewrite Htags.
Qed.

Lemma fillLoop_agrees (ms : list LivestreamModel) :
  (forall m, m ∈ ms -> m ∈ livestreamModels) ->
  exists livestreams,
    mapM (fun m => fillLivestreamResponse (o (ls_UserID m)) s m) ms
    = Some livestreams
    /\ fillLoop (ownersMapOf (map toUser ownerModels))
                (livestreamTagsMapOf all) (tagsMapOf allTagModels) ms
       = (livestreams, false).
Proof.
  induction ms as [| m ms IH]; intros Hsub.
  - by exists [].
  - destruct IH as (livestreams & Hmap & Hloop).
    { intros m' Hm'. apply Hsub. by right. }
    assert (Hm : m ∈ livestreamModels) by (apply Hsub; left).
    destruct (owner_in_map m Hm) as (userModel & Hget & Howner).
    destruct (tags_of_livestream m Hm) as (tagModels & Htm & Htags).
    exists (toLivestream m (toUser userModel) tagModels :: livestreams).
    split.
    + rewrite mapM_cons_eq, single_unfold, Hget, no_usersErr, no_tagsErr, Htm.
      by rewrite Hmap.
    + simpl. rewrite Howner, Hloop, Htags. done.
Qed.

End Passed.

(** The two ways of filling a list of livestreams agree. *)
Lemma bulk_agrees (livestreamModels : list LivestreamModel) :
  fillLivestreamResponseBulk env s livestreamModels
  = mapM (fun m => fillLivestreamResponse (o (ls_UserID m)) s m)
         livestreamModels.
Proof.
  pose proof single_unfold as Hsu. pose proof fillLoop_agrees as Hfa.
  unfold fillLivestreamResponseBulk.
  destruct livestreamModels as [| m0 ms] eqn:Hlist; [done |].
  rewrite <- Hlist. replace (length livestreamModels =? 0)%nat with false
    by (by rewrite Hlist).
  fold users.
  destruct (mapM (fun m => Cache.Get users (ls_UserID m)) livestreamModels)
    as [ownerModels |] eqn:Howners.
  2: { symmetry. apply eq_None_not_Some. intros Hsome.
       apply mapM_is_Some in Hsome.
       assert (Hall : is_Some (mapM (fun m => Cache.Get users (ls_UserID m))
                                    livestreamModels)).
       { apply mapM_is_Some. eapply Forall_impl; [apply Hsome |].
         simpl. intros m. rewrite Hsu. unfold Cache.Get.
         destruct (users !! ls_UserID m); [by eexists | by intros []]. }
       rewrite Howners in Hall. by destruct Hall. }
  unfold fillUserResponseBulk.
  destruct (usersErr env) eqn:Hue.
  { rewrite Hlist, mapM_cons_eq, Hsu.
    by destruct (users !! ls_UserID m0). }
  destruct (bulkTagsErr env) eqn:Hte.
  { rewrite Hlist, mapM_cons_eq, Hsu.
    by destruct (users !! ls_UserID m0). }
  fold tags.
  pose proof (collectTagModels_mapM tags
                (SelectLivestreamTagsIn (db s) (map ls_ID livestreamModels)))
    as Hcollect.
  destruct (mapM (fun r => Cache.Get tags (lt_TagID r))
                 (SelectLivestreamTagsIn (db s) (map ls_ID livestreamModels)))
    as [allTagModels |] eqn:Htags.
  - rewrite Hcollect.
    destruct (Hfa livestreamModels ownerModels allTagModels
                Howners eq_refl eq_refl Htags livestreamModels)
      as (livestreams & Hmap & Hloop); [done |].
    fold toUser. rewrite Hloop. simpl. by rewrite Hmap.
  - destruct (collectTagModels tags _) as [ts gErr]. simpl in Hcollect.
    subst gErr. destruct (fillLoop _ _ _ _) as [ls gErr']. simpl.
    symmetry. apply eq_None_not_Some. intros Hsome.
    apply mapM_is_Some in Hsome.
    assert (Hall : is_Some
              (mapM (fun r => Cache.Get tags (lt_TagID r))
                 (SelectLivestreamTagsIn (db s) (map ls_ID livestreamModels)))).
    { apply mapM_is_Some. apply Forall_forall. intros r Hr.
      apply list_elem_of_In in Hr. apply filter_In in Hr as [Hin Hex].
      apply existsb_exists in Hex as [id [Hid Heq]]. apply Z.eqb_eq in Heq.
      apply in_map_iff in Hid as [m [Hmid Hm]]. apply list_elem_of_In in Hm.
      rewrite Forall_forall in Hsome. specialize (Hsome m Hm).
      simpl in Hsome. rewrite Hsu in Hsome.
      destruct (users !! ls_UserID m); [| by destruct Hsome].
      destruct (mapM _ (SelectLivestreamTags (db s) (ls_ID m))) as [tm |] eqn:Hm';
        [| by destruct Hsome].
      apply mapM_Some_Forall in Hm'. rewrite Forall_forall in Hm'.
      apply Hm'. apply list_elem_of_In. apply filter_In. split; [done |].
      apply Z.eqb_eq. congruence. }
    rewrite Htags in Hall. by destruct Hall.
Qed.

End Bulk.
(** X25.  When the user and tag caches hold every record under its own id,
    [fillLivestreamResponseBulk] returns for a list of livestreams what
    [fillLivestreamResponse] returns for them one by one, given the same
    owners' themes and icon hashes and the same query failures: the same
    list in the same order, or an error exactly when one of the single
    calls fails. *)
Theorem fillLivestreamResponseBulk_agrees_with_single (env : BulkEnv)
    (s : State) (o : Z -> Oracle) (livestreamModels : list LivestreamModel) :
  (forall k userModel,
     Cache.Get (userModelByIdCache (caches s)) k = Some userModel ->
     um_ID userModel = k) ->
  (forall k tagModel,
     Cache.Get (tagModelCache (caches s)) k = Some tagModel ->
     tagm_ID tagModel = k) ->
  (forall userID,
     ownerTheme (o userID)
     = if usersErr env then None else Some (themeAndHash env userID)) ->
  (forall userID, selectTagsErr (o userID) = bulkTagsErr env) ->
  fillLivestreamResponseBulk env s livestreamModels
  = mapM (fun m => fillLivestreamResponse (o (ls_UserID m)) s m)
         livestreamModels.
Proof. intros Hu Ht Ho Hs. by apply bulk_agrees. Qed.

(** ** Cache population and the key invariant *)

Section Keyed.
Context {K : Type} `{Countable K} {V : Type}.
Variable key : V -> K.

Lemma BulkLoad_keyed (records : list V) (c : gmap K V) :
  (forall k v, c !! k = Some v -> key v = k) ->
  forall k v, BulkLoad key records c !! k = Some v -> key v = k.
Proof.
  revert c. induction records as [| r records IH]; intros c Hc; [done |].
  rewrite BulkLoad_cons. apply IH. intros k v. unfold Cache.Set_.
  destruct (decide (key r = k)) as [<- | Hne].
  - rewrite lookup_insert_eq. congruence.
  - rewrite lookup_insert_ne by done. apply Hc.
Qed.

Lemma BulkLoad_from_records (records : list V) (c : gmap K V) (k : K) (v : V) :
  BulkLoad key records c !! k = Some v -> c !! k = Some v \/ v ∈ records.
Proof.
  revert c. induction records as [| r records IH]; intros c; [by left |].
  rewrite BulkLoad_cons. intros Hl. apply IH in Hl as [Hl | Hl].
  - unfold Cache.Set_ in Hl. destruct (decide (key r = k)) as [<- | Hne].
    + rewrite lookup_insert_eq in Hl. injection Hl as <-. right. left.
    + rewrite lookup_insert_ne in Hl by done. by left.
  - right. by right.
Qed.

Lemma BulkLoad_lookup_NoDup (records : list V) (c : gmap K V) (r : V) :
  NoDup (map key records) -> r ∈ records ->
  BulkLoad key records c !! key r = Some r.
Proof.
  revert c. induction records as [| a records IH]; intros c Hnd Hr.
  - by apply elem_of_nil in Hr.
  - simpl in Hnd. apply NoDup_cons in Hnd as [Ha Hnd]. rewrite BulkLoad_cons.
    apply elem_of_cons in Hr as [-> | Hr].
    + rewrite BulkLoad_lookup_other.
      * apply lookup_insert_eq.
      * apply Forall_forall. intros x Hx Hk. apply Ha.
        apply list_elem_of_fmap. by exists x.
    + by apply IH.
Qed.

Lemma BulkLoad_to_list (records : list V) (c : gmap K V) :
  NoDup (map key records) ->
  Forall (fun r => c !! key r = None) records ->
  map_to_list (BulkLoad key records c)
  ≡ₚ map_to_list c ++ map (fun r => (key r, r)) records.
Proof.
  revert c. induction records as [| a records IH]; intros c Hnd Hnone.
  - simpl. by rewrite List.app_nil_r.
  - simpl in Hnd. apply NoDup_cons in Hnd as [Ha Hnd].
    apply Forall_cons in Hnone as [Hca Hnone].
    rewrite BulkLoad_cons, IH; [| done |].
    + unfold Cache.Set_. rewrite map_to_list_insert by done. simpl.
      by rewrite Permutation_middle.
    + apply Forall_forall. intros x Hx. unfold Cache.Set_.
      rewrite lookup_insert_ne.
      * rewrite Forall_forall in Hnone. by apply Hnone.
      * intros Hk. apply Ha. apply list_elem_of_fmap. by exists x.
Qed.
End Keyed.

(** X26.  After initialization, when the tag ids, the user ids and the
    user names of the tables are pairwise distinct, each tag is found in
    the tag cache under its id and each user in the two user caches under
    its id and under its name. *)
Theorem initializeCaches_round_trip (tags : list TagModel)
    (users : list UserModel) :
  NoDup (map tagm_ID tags) ->
  NoDup (map um_ID users) ->
  NoDup (map um_Name users) ->
  let c := initializeCaches tags users in
  (forall t, t ∈ tags -> Cache.Get (tagModelCache c) (tagm_ID t) = Some t)
  /\ (forall u, u ∈ users ->
        Cache.Get (userModelByIdCache c) (um_ID u) = Some u
        /\ Cache.Get (userModelByNameCache c) (um_Name u) = Some u).
Proof.
  intros Ht Hu Hn c. subst c. unfold initializeCaches, Cache.Get. simpl.
  split.
  - intros t Hin. by apply BulkLoad_lookup_NoDup.
  - intros u Hin. split; by apply BulkLoad_lookup_NoDup.
Qed.

Lemma initializeCaches_round_trip_witness :
  Cache.Get (tagModelCache (initializeCaches [chat] [alice])) 7 = Some chat.
Proof.
  refine (proj1 (initializeCaches_round_trip [chat] [alice] _ _ _) chat _).
  - apply (bool_decide_unpack _). vm_compute. reflexivity.
  - apply (bool_decide_unpack _). vm_compute. reflexivity.
  - apply (bool_decide_unpack _). vm_compute. reflexivity.
  - left.
Defined.

(** X27.  After initialization with pairwise distinct tag ids,
    [getTagHandler] answers with every tag of the table exactly once, in
    an order that the cache does not fix. *)
Theorem getTagHandler_lists_every_tag_once (tags : list TagModel)
    (users : list UserModel) :
  NoDup (map tagm_ID tags) ->
  getTagHandler (initializeCaches tags users) ≡ₚ map tagOfModel tags.
Proof.
  intros Hnd. unfold getTagHandler, Cache.All, initializeCaches. simpl.
  unfold Cache.Init.
  rewrite (BulkLoad_to_list tagm_ID tags ∅ Hnd).
  - rewrite map_to_list_empty. simpl.
    rewrite <- !list_fmap_compose.
    induction tags as [| t tags IH]; [done |]. simpl.
    simpl in Hnd. apply NoDup_cons in Hnd as [_ Hnd]. by rewrite <- IH.
  - apply Forall_forall. intros t _. apply lookup_empty.
Qed.

Lemma getTagHandler_lists_every_tag_once_witness :
  getTagHandler (initializeCaches [chat] [alice]) ≡ₚ map tagOfModel [chat].
Proof.
  apply (getTagHandler_lists_every_tag_once [chat] [alice]).
  apply (bool_decide_unpack _). vm_compute. reflexivity.
Defined.

Lemma keyedByOwnField_initializeCaches (tags : list TagModel)
    (users : list UserModel) :
  keyedByOwnField (initializeCaches tags users).
Proof.
  unfold keyedByOwnField, initializeCaches, Cache.Init. simpl.
  repeat split; try (apply BulkLoad_keyed; intros k v Hl;
                      by rewrite lookup_empty in Hl).
  - intros k v Hl. by rewrite lookup_empty in Hl.
  - intros k v Hl. by rewrite lookup_empty in Hl.
Qed.

Lemma keyedByOwnField_cacheLivestream (c : Caches) (m : LivestreamModel) :
  keyedByOwnField c -> keyedByOwnField (cacheLivestream c m).
Proof.
  intros (Ht & Hu & Hn & Hl & Hb).
  unfold keyedByOwnField, cacheLivestream, Cache.Set_, Cache.Get. simpl.
  repeat split; try done.
  - intros k v. destruct (decide (ls_ID m = k)) as [<- | Hne].
    + rewrite lookup_insert_eq. congruence.
    + rewrite lookup_insert_ne by done. apply Hl.
  - intros k l. destruct (decide (ls_UserID m = k)) as [<- | Hne].
    + rewrite lookup_insert_eq. intros Heq. injection Heq as <-.
      apply Forall_app. split; [| by apply Forall_singleton].
      destruct (livestreamModelByUserIDCache c !! ls_UserID m) as [old |] eqn:Ho;
        [by eapply Hb | constructor].
    + rewrite lookup_insert_ne by done. apply Hb.
Qed.

Lemma handler_caches_cases (o : Oracle) (userID : Z)
    (req : ReserveLivestreamRequest) (s : State) :
  let r := reserveLivestreamHandler o userID req s in
  caches (final r) = caches s
  \/ caches (final r)
     = cacheLivestream (caches s)
         (withID (newLivestreamModel userID req)
                 (livestreams_auto_increment (db s))).
Proof. unfold_handler. repeat branch; auto. Qed.

(** X28.  Starting from the caches that initialization builds, after any
    sequence of reservation calls every keyed cache still holds each
    record under its own key: tags and users under their id (and users
    under their name), livestreams under their id, and under a user id
    only livestreams of that user. *)
Theorem caches_stay_keyed_by_own_field (tags : list TagModel)
    (users : list UserModel) (d : DB)
    (calls : list (Oracle * Z * ReserveLivestreamRequest)) :
  keyedByOwnField
    (caches (reserveAll calls
               {| db := d; caches := initializeCaches tags users |})).
Proof.
  assert (Hgen : forall s, keyedByOwnField (caches s) ->
                           keyedByOwnField (caches (reserveAll calls s))).
  { induction calls as [| [[o userID] req] calls IH]; intros s Hs; [done |].
    simpl. apply IH.
    destruct (handler_caches_cases o userID req s) as [-> | ->]; [done |].
    by apply keyedByOwnField_cacheLivestream. }
  apply Hgen. apply keyedByOwnField_initializeCaches.
Qed.

Lemma fillLivestreamResponseBulk_agrees_with_single_witness :
  let env :=
    {| usersErr := false;
       themeAndHash :=
         fun _ => ({| theme_ID := 1; theme_DarkMode := false |}, "00"%string);
       bulkTagsErr := false |} in
  fillLivestreamResponseBulk env reserved (livestreams (db reserved))
  = mapM (fun m => fillLivestreamResponse noErrors reserved m)
         (livestreams (db reserved)).
Proof.
  intros env.
  assert (Hk : keyedByOwnField (caches reserved)).
  { change (caches reserved)
      with (cacheLivestream (initializeCaches [chat] [alice])
              (withID (newLivestreamModel 1 (request [7] T0 (T0 + hour))) 1)).
    apply keyedByOwnField_cacheLivestream, keyedByOwnField_initializeCaches. }
  destruct Hk as (Ht & Hu & _).
  apply (fillLivestreamResponseBulk_agrees_with_single env reserved
           (fun _ => noErrors) (livestreams (db reserved))).
  - exact Hu.
  - exact Ht.
  - reflexivity.
  - reflexivity.
Defined.

Lemma find_new_row (l : list LivestreamModel) (m : LivestreamModel) :
  Forall (fun x => ls_ID x < ls_ID m) l ->
  List.find (fun x => ls_ID x =? ls_ID m) (l ++ [m]) = Some m.
Proof.
  induction 1 as [| x l Hx _ IH]; simpl.
  - by rewrite Z.eqb_refl.
  - destruct (Z.eqb_spec (ls_ID x) (ls_ID m)); [lia | exact IH].
Qed.

(** X29.  A reservation read back: when the stored livestreams have ids
    below the next generated id, [getLivestreamHandler] called with the id
    of a livestream just created answers [200] with the livestream that the
    reservation answered. *)
Theorem created_livestream_is_read_back (o : Oracle) (userID : Z)
    (req : ReserveLivestreamRequest) (s : State) (livestream : Livestream) :
  let r := reserveLivestreamHandler o userID req s in
  resp r = JSON StatusCreated livestream ->
  Forall (fun m => ls_ID m < livestreams_auto_increment (db s))
         (livestreams (db s)) ->
  getLivestreamHandler false o (livestreams_auto_increment (db s)) (final r)
  = GetJSON StatusOK livestream.
Proof.
  intros r Hr Hlt.
  destruct (created_fill o userID req s livestream Hr) as [Hfill _].
  fold r in Hfill.
  assert (Hc : isCreated (resp r) = true) by (by rewrite Hr).
  destruct (created_run o userID req s Hc) as (_ & _ & Hdb & _).
  fold r in Hdb.
  assert (Hls : livestreams (db (final r))
                = livestreams (db s)
                  ++ [withID (newLivestreamModel userID req)
                             (livestreams_auto_increment (db s))]).
  { rewrite Hdb. by destruct (0 <? _). }
  unfold getLivestreamHandler. rewrite Hls.
  pose proof (find_new_row (livestreams (db s))
                (withID (newLivestreamModel userID req)
                        (livestreams_auto_increment (db s))) Hlt) as Hfind.
  simpl in Hfind.
  by rewrite Hfind, Hfill.
Qed.

Lemma created_livestream_is_read_back_witness :
  exists livestream,
    getLivestreamHandler false noErrors 1 reserved = GetJSON StatusOK livestream.
Proof.
  eexists.
  apply (created_livestream_is_read_back noErrors 1
           (request [7] T0 (T0 + hour)) (initial 1)).
  - reflexivity.
  - apply Forall_nil_2.
Defined.

(** X30.  [moderateHandler] writes inside its transaction: whenever it
    answers with an error, the NG words and the comments are as they were
    before the call. *)
Theorem failed_moderation_changes_nothing (like : string -> string -> bool)
    (env : ModerateEnv) (userID livestreamID : Z) (ngword : string)
    (s : State) (c : CommentDB) (code : Z) (m : moderateMessage) :
  (moderateHandler like env userID livestreamID ngword s c).1
  = ModerateError code m ->
  (moderateHandler like env userID livestreamID ngword s c).2 = c.
Proof.
  unfold moderateHandler.
  destruct (modBeginErr env); [done |].
  destruct (Cache.Get _ _); [| done].
  destruct (modInsertErr env); [done |]. simpl.
  destruct (modLastInsertIdErr env); [done |].
  destruct (modSelectErr env); [done |].
  destruct (if modDeleteErr env then None else _); [| done].
  destruct (modCommitErr env); [done | discriminate].
Qed.

Lemma failed_moderation_changes_nothing_witness :
  (moderateHandler Contains noModerateErrors 1 5 "ugly" reserved comments).2
  = comments.
Proof.
  apply (failed_moderation_changes_nothing Contains noModerateErrors 1 5 "ugly"
           reserved comments StatusBadRequest CannotModerateOthersLivestream).
  reflexivity.
Defined.

